(** * pkgbld.release: the Package-Builder release procedure

    A shallow embedding of [src/pkgbld/release.py].  The procedure is a
    linear orchestration of external tools, so the embedding is a small
    trace-and-exception monad: every interaction with the outside world
    (console, file system, clock, the helpers of [pkgbld.utils]) is
    recorded as an [event], and an environment decides, from the history
    so far, how each interaction turns out. *)

From Stdlib Require Import String Ascii List Bool ZArith Lia.
Import ListNotations.
Open Scope string_scope.

(** ** Python values and string helpers *)

(** The dynamically typed arguments [release] can receive. *)
Inductive pyval : Type :=
| PyStr (s : string)
| PyBool (b : bool)
| PyInt (z : Z)
| PyNone.

(** [s.split(sep)] for a one-character separator. *)
Fixpoint split_on (sep : ascii) (s : string) : list string :=
  match s with
  | EmptyString => [EmptyString]
  | String c s' =>
      if Ascii.eqb c sep then EmptyString :: split_on sep s'
      else match split_on sep s' with
           | w :: ws => String c w :: ws
           | [] => [String c EmptyString]
           end
  end.

(** [sep.join(l)]. *)
Fixpoint str_join (sep : string) (l : list string) : string :=
  match l with
  | [] => ""
  | [x] => x
  | x :: r => x ++ sep ++ str_join sep r
  end.

(** ['{}'.format(l)] for a list of strings free of quotes, backslashes
    and control characters (the interpreter versions are such strings). *)
Definition repr_str_list (l : list string) : string :=
  "[" ++ str_join ", " (map (fun s => "'" ++ s ++ "'") l) ++ "]".

(** [os.path.join] of [posixpath]. *)
Definition startswith_sep (b : string) : bool :=
  match b with
  | String c _ => Ascii.eqb c "/"
  | EmptyString => false
  end.

Fixpoint endswith_sep (p : string) : bool :=
  match p with
  | EmptyString => false
  | String c EmptyString => Ascii.eqb c "/"
  | String _ r => endswith_sep r
  end.

Definition path_join2 (path b : string) : string :=
  if startswith_sep b then b
  else if (path =? "") || endswith_sep path then path ++ b
  else path ++ "/" ++ b.

Definition path_join (a : string) (p : list string) : string :=
  fold_left path_join2 p a.

(** ** The regular expressions of [re.match]

    Only the constructs of the version pattern are modelled: the two
    anchors, a literal character, and [[lo-hi]+]. *)
Module Re.

Inductive item : Type :=
| Caret
| Dollar
| Lit (c : ascii)
| RangePlus (lo hi : ascii).

Definition in_range (lo hi c : ascii) : bool :=
  Nat.leb (nat_of_ascii lo) (nat_of_ascii c) && Nat.leb (nat_of_ascii c) (nat_of_ascii hi).

(** Without MULTILINE, [$] matches at the end of the string and just
    before a newline that is the last character of the string. *)
Definition at_dollar (s : string) : bool :=
  match s with
  | EmptyString => true
  | String c EmptyString => Ascii.eqb c "010"
  | _ => false
  end.

(** [match_here items at_start s]: the items match a prefix of [s];
    [at_start] tells whether [s] is the whole subject.  [+] is greedy
    and backtracks. *)
Fixpoint match_here (items : list item) : bool -> string -> bool :=
  match items with
  | [] => fun _ _ => true
  | Caret :: r => fun at_start s => at_start && match_here r at_start s
  | Dollar :: r => fun at_start s => at_dollar s && match_here r at_start s
  | Lit c :: r => fun _ s =>
      match s with
      | String c' s' => Ascii.eqb c' c && match_here r false s'
      | EmptyString => false
      end
  | RangePlus lo hi :: r => fun _ s =>
      (fix plus (s : string) : bool :=
         match s with
         | String c s' => in_range lo hi c && (plus s' || match_here r false s')
         | EmptyString => false
         end) s
  end.

(** [re.match(pattern, s) is not None]. *)
Definition re_match (pattern : list item) (s : string) : bool :=
  match_here pattern true s.

End Re.

(** ** Module constants (lines 15-30) *)

Definition BASE_PYTHON_VERSIONS : list string := ["3.6"].
Definition OS_PLATFORMS : list string := ["osx-64"; "linux-64"; "win-32"; "win-64"].

Definition GITHUB_URL : string := "https://github.com/PSLmodels".
Definition ANACONDA_USER : string := "pslmodels".
Definition ANACONDA_CHANNEL : string := ANACONDA_USER.
Definition BUILDS_DIR : string := "pkgbld_output".

(** ** Events, environments and the monad *)

(** One constructor per kind of interaction with the outside world. *)
Inductive event : Type :=
| Print (line : string)                      (* print(line) *)
| IsFile (path : string)                     (* os.path.isfile(path) *)
| IsDir (path : string)                      (* os.path.isdir(path) *)
| Asctime                                    (* time.asctime() *)
| Rmtree (path : string)                     (* shutil.rmtree(path) *)
| Mkdir (path : string)                      (* os.mkdir(path) *)
| Chdir (path : string)                      (* os.chdir(path) *)
| OsCall (cmd : string)                      (* u.os_call(cmd) *)
| FileRevision (filename pattern replacement : string)
                                             (* u.file_revision(...) *)
| CondaPlatformName.                         (* u.conda_platform_name() *)

(** Printing, the two path tests and the clock never raise; every other
    interaction may. *)
Definition fallible (ev : event) : bool :=
  match ev with
  | Print _ | IsFile _ | IsDir _ | Asctime => false
  | _ => true
  end.

(** Interactions that change the file system, change the process state,
    run an external command or reach the network. *)
Definition side_effect (ev : event) : bool :=
  match ev with
  | Rmtree _ | Mkdir _ | Chdir _ | OsCall _ | FileRevision _ _ _ => true
  | _ => false
  end.

(** The outside world.  [home_dir] is [os.path.expanduser('~')]; the
    three oracles say, given the history of earlier events, whether a
    fallible call returns normally and what a query answers.  The helpers
    of [pkgbld.utils] are not part of the embedded file: they are
    interactions like the others. *)
Record env : Type := {
  home_dir : string;
  returns : list event -> event -> bool;
  answer_bool : list event -> event -> bool;
  answer_str : list event -> event -> string
}.

Inductive exn : Type :=
| ValueError (msg : string)
| IndexError
| Raised (by_call : event).

Inductive result (A : Type) : Type :=
| Ok (a : A)
| Err (e : exn).
Arguments Ok {A} a.
Arguments Err {A} e.

(** A computation maps the history to the extended history and either a
    value or the exception that ended it. *)
Definition M (A : Type) : Type := list event -> list event * result A.

Definition ret {A} (a : A) : M A := fun h => (h, Ok a).

Definition raise {A} (e : exn) : M A := fun h => (h, Err e).

Definition bind {A B} (m : M A) (k : A -> M B) : M B :=
  fun h =>
    match m h with
    | (h', Ok a) => k a h'
    | (h', Err e) => (h', Err e)
    end.

Declare Scope m_scope.
Delimit Scope m_scope with m.
Notation "x <- m ;; k" := (bind m (fun x => k))
  (at level 61, m at next level, right associativity) : m_scope.
Notation "m ;; k" := (bind m (fun _ => k))
  (at level 61, right associativity) : m_scope.
Open Scope m_scope.

(** [for x in l: body(x)]. *)
Fixpoint for_each {A} (l : list A) (body : A -> M unit) : M unit :=
  match l with
  | [] => ret tt
  | x :: r => body x ;; for_each r body
  end.


(** ** Pure parts of [release] *)

(** Line 84: [^[0-9]+\.[0-9]+\.[0-9]+$]. *)
Definition version_pattern : list Re.item :=
  [Re.Caret; Re.RangePlus "0" "9"; Re.Lit "."; Re.RangePlus "0" "9";
   Re.Lit "."; Re.RangePlus "0" "9"; Re.Dollar].

(** Lines 94-98. *)
Definition python_versions (also37 : bool) : list string :=
  if also37 then (BASE_PYTHON_VERSIONS ++ ["3.7"])%list
  else BASE_PYTHON_VERSIONS.

(** Lines 166-167: [pyver_parts[0] + pyver_parts[1]]; indexing past the
    end of the list raises. *)
Definition pystr_of (pyver : string) : result string :=
  let pyver_parts := split_on "." pyver in
  match nth_error pyver_parts 0, nth_error pyver_parts 1 with
  | Some p0, Some p1 => Ok (p0 ++ p1)
  | _, _ => Err IndexError
  end.

(** Line 168. *)
Definition pkgfile (pkg_name version pyver : string) : result string :=
  match pystr_of pyver with
  | Ok pystr => Ok (pkg_name ++ "-" ++ version ++ "-py" ++ pystr ++ "_0.tar.bz2")
  | Err e => Err e
  end.

Definition dquote : string := String "034" "".

(** The command lines of lines 125, 158, 173 and 190. *)
Definition clone_cmd (version repo_name : string) : string :=
  "git clone --branch " ++ version ++ " --depth 1 " ++ GITHUB_URL ++ "/"
    ++ repo_name ++ "/".

Definition build_cmd (pyver : string) : string :=
  "conda build --python " ++ pyver ++ " --old-build-string --channel "
    ++ ANACONDA_CHANNEL
    ++ " --override-channels --no-anaconda-upload --output-folder "
    ++ BUILDS_DIR ++ " conda.recipe".

Definition convert_cmd (platform pkgpath : string) : string :=
  "conda convert -p " ++ platform ++ " -o " ++ BUILDS_DIR ++ " " ++ pkgpath.

Definition purge_cmd : string := "conda build purge".

Section Release.

Variable E : env.

(** A call that returns nothing. *)
Definition perform (ev : event) : M unit :=
  fun h =>
    if fallible ev && negb (returns E h ev)
    then ((h ++ [ev])%list, Err (Raised ev))
    else ((h ++ [ev])%list, Ok tt).

(** A query that cannot raise. *)
Definition ask_bool (ev : event) : M bool :=
  fun h => ((h ++ [ev])%list, Ok (answer_bool E h ev)).

Definition ask_str (ev : event) : M string :=
  fun h => ((h ++ [ev])%list, Ok (answer_str E h ev)).

(** A call that returns a string or raises. *)
Definition call_str (ev : event) : M string :=
  fun h =>
    if returns E h ev
    then ((h ++ [ev])%list, Ok (answer_str E h ev))
    else ((h ++ [ev])%list, Err (Raised ev)).

Definition print (line : string) : M unit := perform (Print line).
Definition os_path_isfile (p : string) : M bool := ask_bool (IsFile p).
Definition os_path_isdir (p : string) : M bool := ask_bool (IsDir p).
Definition time_asctime : M string := ask_str Asctime.
Definition shutil_rmtree (p : string) : M unit := perform (Rmtree p).
Definition os_mkdir (p : string) : M unit := perform (Mkdir p).
Definition os_chdir (p : string) : M unit := perform (Chdir p).
Definition os_call (cmd : string) : M unit := perform (OsCall cmd).
Definition file_revision (filename pattern replacement : string) : M unit :=
  perform (FileRevision filename pattern replacement).
Definition conda_platform_name : M string := call_str CondaPlatformName.

(** Lines 21-29. *)
Definition HOME_DIR : string := home_dir E.
Definition ANACONDA_TOKEN_FILE : string :=
  path_join HOME_DIR ["." ++ ANACONDA_USER ++ "_anaconda_token"].
Definition WORKING_DIR : string :=
  path_join HOME_DIR ["temporary_pkgbld_working_dir"].

(** Line 182. *)
Definition upload_cmd (pkgpath : string) : string :=
  "anaconda -t " ++ ANACONDA_TOKEN_FILE ++ " upload -u " ++ ANACONDA_USER
    ++ " --force " ++ pkgpath.

(** The guards of lines 74-83; the checked value is handed on with
    its type. *)
Definition check_str (v : pyval) (msg : string) : M string :=
  match v with
  | PyStr s => ret s
  | _ => raise (ValueError msg)
  end.

Definition check_bool (v : pyval) (msg : string) : M bool :=
  match v with
  | PyBool b => ret b
  | _ => raise (ValueError msg)
  end.

Definition lift {A} (r : result A) : M A := fun h => (h, r).

(** Lines 170-176. *)
Definition convert_all (local_platform pkgpath : string) : M unit :=
  for_each OS_PLATFORMS (fun platform =>
    if platform =? local_platform then ret tt
    else os_call (convert_cmd platform pkgpath)).

(** Lines 180-185. *)
Definition upload_all (pkgfile : string) : M unit :=
  for_each OS_PLATFORMS (fun platform =>
    let pkgpath := path_join BUILDS_DIR [platform; pkgfile] in
    os_call (upload_cmd pkgpath)).

(** The body of the loop of line 154. *)
Definition build_convert_upload
    (pkg_name version local_platform pyver : string) : M unit :=
  print (": Package-Builder is building package for Python " ++ pyver);;
  os_call (build_cmd pyver);;
  print (": Package-Builder is converting package for Python " ++ pyver);;
  pkgfile <- lift (pkgfile pkg_name version pyver);;
  let pkgpath := path_join BUILDS_DIR [local_platform; pkgfile] in
  convert_all local_platform pkgpath;;
  print (": Package-Builder is uploading packages for Python " ++ pyver);;
  upload_all pkgfile.

(** Lines 113-197: what [release] does once the plan is shown and the
    run is not a dry run. *)
Definition release_steps
    (repo_name pkg_name version : string) (python_versions : list string)
    : M unit :=
  (* show date and time *)
  now <- time_asctime;;
  print (": Package-Builder is starting at " ++ now);;
  (* make empty working directory *)
  isdir <- os_path_isdir WORKING_DIR;;
  (if isdir then shutil_rmtree WORKING_DIR else ret tt);;
  os_mkdir WORKING_DIR;;
  os_chdir WORKING_DIR;;
  (* clone code for model_version from model repository *)
  print (": Package-Builder is cloning repository code for " ++ version);;
  os_call (clone_cmd version repo_name);;
  os_chdir repo_name;;
  (* specify version in several repository files *)
  print ": Package-Builder is setting version";;
  (* ... specify version in meta.yaml file *)
  file_revision
    (path_join "conda.recipe" ["meta.yaml"])
    "version: .*"
    ("version: " ++ version);;
  (* ... specify version in setup.py file *)
  file_revision
    "setup.py"
    "version = .*"
    ("version = " ++ dquote ++ version ++ dquote);;
  (* ... specify version in package_name/__init__.py file *)
  file_revision
    (path_join pkg_name ["__init__.py"])
    "__version__ = .*"
    ("__version__ = " ++ dquote ++ version ++ dquote);;
  (* build and upload model package for each Python version and platform *)
  local_platform <- conda_platform_name;;
  for_each python_versions
    (build_convert_upload pkg_name version local_platform);;
  print ": Package-Builder is cleaning-up";;
  (* remove local packages made during this process *)
  os_call purge_cmd;;
  (* remove working directory and its contents *)
  os_chdir HOME_DIR;;
  shutil_rmtree WORKING_DIR;;
  now <- time_asctime;;
  print (": Package-Builder is finishing at " ++ now).

(** Lines 101-108. *)
Definition show_plan
    (repo_name pkg_name version : string) (python_versions : list string)
    : M unit :=
  print ": Package-Builder will build model packages for:";;
  print (":   repository_name = " ++ repo_name);;
  print (":   package_name = " ++ pkg_name);;
  print (":   model_version = " ++ version);;
  print (":   python_versions = " ++ repr_str_list python_versions);;
  print ": Package-Builder will upload model packages to:";;
  print (":   Anaconda channel = " ++ ANACONDA_CHANNEL);;
  print (":   using token in file = " ++ ANACONDA_TOKEN_FILE).

(** [release(repo_name, pkg_name, version, also37, dryrun)], with all
    five arguments given. *)
Definition release (repo_name pkg_name version also37 dryrun : pyval)
    : M unit :=
  (* check parameters *)
  repo_name <- check_str repo_name "repo_name is not a string object";;
  pkg_name <- check_str pkg_name "pkg_name is not a string object";;
  version <- check_str version "version is not a string object";;
  also37 <- check_bool also37 "also37 is not a boolean object";;
  dryrun <- check_bool dryrun "dryrun is not a boolean object";;
  if negb (Re.re_match version_pattern version) then
    raise (ValueError
             ("version=" ++ version
                ++ " does not have X.Y.Z semantic-versioning pattern"))
  else
  (* check for token file *)
  isfile <- os_path_isfile ANACONDA_TOKEN_FILE;;
  if negb isfile then
    raise (ValueError
             ("Anaconda token file " ++ ANACONDA_TOKEN_FILE
                ++ " does not exist"))
  else
  (* specify Python versions *)
  let python_versions := python_versions also37 in
  (* show build/upload plan *)
  show_plan repo_name pkg_name version python_versions;;
  if dryrun then
    print ": Package-Builder is quitting"
  else
    release_steps repo_name pkg_name version python_versions.


End Release.

(** ** Concrete environments *)

(** Every call returns, the token file exists, the working directory
    does not, the local platform is linux-64. *)
Definition env_fine : env := {|
  home_dir := "/home/psl";
  returns := fun _ _ => true;
  answer_bool := fun _ ev => match ev with IsFile _ => true | _ => false end;
  answer_str := fun _ ev =>
    match ev with
    | CondaPlatformName => "linux-64"
    | _ => "Tue Oct 23 09:00:00 2018"
    end
|}.

(** As [env_fine], but the token file is absent. *)
Definition env_no_token : env := {|
  home_dir := home_dir env_fine;
  returns := returns env_fine;
  answer_bool := fun _ _ => false;
  answer_str := answer_str env_fine
|}.

(** ** Scripts: straight-line sequences of events

    Running a script performs its events in order and stops at the first
    call that does not return.  Every phase of [release] behaves as a
    script whose text depends only on the answers the queries got. *)

Open Scope list_scope.

Fixpoint run_script (E : env) (evs : list event) : M unit :=
  match evs with
  | [] => ret tt
  | ev :: r => perform E ev ;; run_script E r
  end.

(** [l1] is an initial segment of [l2]. *)
Definition prefix_of {A} (l1 l2 : list A) : Prop := exists r, l2 = l1 ++ r.

(** The OsCall commands of a trace, in order. *)
Fixpoint os_calls (tr : list event) : list string :=
  match tr with
  | [] => []
  | OsCall cmd :: r => cmd :: os_calls r
  | _ :: r => os_calls r
  end.

(** The FileRevision events of a trace, in order. *)
Definition is_file_revision (ev : event) : bool :=
  match ev with
  | FileRevision _ _ _ => true
  | _ => false
  end.

(** The artifact name in the words of the specification: package,
    version, and the interpreter version with its dots dropped. *)
Fixpoint drop_dots (s : string) : string :=
  match s with
  | EmptyString => EmptyString
  | String c r => if Ascii.eqb c "." then drop_dots r else String c (drop_dots r)
  end.

Definition artifact_name (pkg_name version pyver : string) : string :=
  (pkg_name ++ "-" ++ version ++ "-py" ++ drop_dots pyver ++ "_0.tar.bz2")%string.

(** The three calls of lines 134-150, as events. *)
Definition stamp_meta (version : string) : event :=
  FileRevision (path_join "conda.recipe" ["meta.yaml"])
    "version: .*" ("version: " ++ version)%string.

Definition stamp_setup (version : string) : event :=
  FileRevision "setup.py"
    "version = .*" ("version = " ++ dquote ++ version ++ dquote)%string.

Definition stamp_init (pkg_name version : string) : event :=
  FileRevision (path_join pkg_name ["__init__.py"])
    "__version__ = .*" ("__version__ = " ++ dquote ++ version ++ dquote)%string.

Section ScriptDefs.

Variable E : env.

Definition converts (local_platform pkgfile : string) : list event :=
  map (fun platform =>
         OsCall (convert_cmd platform
                   (path_join BUILDS_DIR [local_platform; pkgfile])))
      (filter (fun platform => negb (platform =? local_platform)%string)
              OS_PLATFORMS).

Definition uploads (pkgfile : string) : list event :=
  map (fun platform =>
         OsCall (upload_cmd E (path_join BUILDS_DIR [platform; pkgfile])))
      OS_PLATFORMS.

(** One round of the loop, when every call returns. *)
Definition iteration_script
    (pkg_name version local_platform pyver : string) : list event :=
  [Print (": Package-Builder is building package for Python " ++ pyver)%string;
   OsCall (build_cmd pyver);
   Print (": Package-Builder is converting package for Python " ++ pyver)%string]
  ++ converts local_platform (artifact_name pkg_name version pyver)
  ++ [Print (": Package-Builder is uploading packages for Python " ++ pyver)%string]
  ++ uploads (artifact_name pkg_name version pyver).

Definition loop_script
    (pkg_name version local_platform : string) (pyvers : list string)
    : list event :=
  flat_map (iteration_script pkg_name version local_platform) pyvers.

Definition plan_script
    (repo_name pkg_name version : string) (pyvers : list string)
    : list event :=
  [Print ": Package-Builder will build model packages for:";
   Print (":   repository_name = " ++ repo_name)%string;
   Print (":   package_name = " ++ pkg_name)%string;
   Print (":   model_version = " ++ version)%string;
   Print (":   python_versions = " ++ repr_str_list pyvers)%string;
   Print ": Package-Builder will upload model packages to:";
   Print (":   Anaconda channel = " ++ ANACONDA_CHANNEL)%string;
   Print (":   using token in file = " ++ ANACONDA_TOKEN_FILE E)%string].

(** Everything up to and including the clone. *)
Definition acquire_script
    (repo_name version now : string) (existed : bool) : list event :=
  [Asctime;
   Print (": Package-Builder is starting at " ++ now)%string;
   IsDir (WORKING_DIR E)]
  ++ (if existed then [Rmtree (WORKING_DIR E)] else [])
  ++ [Mkdir (WORKING_DIR E);
      Chdir (WORKING_DIR E);
      Print (": Package-Builder is cloning repository code for " ++ version)%string;
      OsCall (clone_cmd version repo_name)].

Definition stamp_script (repo_name pkg_name version : string) : list event :=
  [Chdir repo_name;
   Print ": Package-Builder is setting version";
   stamp_meta version;
   stamp_setup version;
   stamp_init pkg_name version;
   CondaPlatformName].

Definition cleanup_script (now : string) : list event :=
  [Print ": Package-Builder is cleaning-up";
   OsCall purge_cmd;
   Chdir (HOME_DIR E);
   Rmtree (WORKING_DIR E);
   Asctime;
   Print (": Package-Builder is finishing at " ++ now)%string].

(** The whole of [release_steps]; [now], [existed], [local_platform]
    and [now'] are the answers of the clock, of the directory test, of
    [conda_platform_name] and of the clock again. *)
Definition steps_script
    (repo_name pkg_name version : string) (pyvers : list string)
    (now : string) (existed : bool) (local_platform now' : string)
    : list event :=
  acquire_script repo_name version now existed
  ++ stamp_script repo_name pkg_name version
  ++ loop_script pkg_name version local_platform pyvers
  ++ cleanup_script now'.

(** The history at which [conda_platform_name] is called. *)
Definition before_platform_query
    (repo_name pkg_name version now : string) (existed : bool)
    : list event :=
  acquire_script repo_name version now existed
  ++ firstn 5 (stamp_script repo_name pkg_name version).

(** The whole of a call that passes its preconditions. *)
Definition release_script
    (repo_name pkg_name version : string) (also37 dryrun : bool)
    (now : string) (existed : bool) (local_platform now' : string)
    : list event :=
  IsFile (ANACONDA_TOKEN_FILE E)
  :: plan_script repo_name pkg_name version (python_versions also37)
  ++ (if dryrun then [Print ": Package-Builder is quitting"]
      else steps_script repo_name pkg_name version (python_versions also37)
             now existed local_platform now').

Definition token_file_exists : bool :=
  answer_bool E [] (IsFile (ANACONDA_TOKEN_FILE E)).

(** The part of [acquire_script] before the clone command. *)
Definition before_clone (version now : string) (existed : bool) : list event :=
  [Asctime;
   Print (": Package-Builder is starting at " ++ now)%string;
   IsDir (WORKING_DIR E)]
  ++ (if existed then [Rmtree (WORKING_DIR E)] else [])
  ++ [Mkdir (WORKING_DIR E);
      Chdir (WORKING_DIR E);
      Print (": Package-Builder is cloning repository code for " ++ version)%string].

End ScriptDefs.

(** ** Preconditions *)

Definition is_str (v : pyval) : bool :=
  match v with
  | PyStr _ => true
  | _ => false
  end.

Definition is_bool (v : pyval) : bool :=
  match v with
  | PyBool _ => true
  | _ => false
  end.

(** The seven preconditions of a call. *)
Inductive precondition : Type :=
| RepoNameIsString
| PkgNameIsString
| VersionIsString
| Also37IsBoolean
| DryrunIsBoolean
| VersionHasPattern
| TokenFileExists.

(** The order in which the specification lists the checks. *)
Definition check_order : list precondition :=
  [RepoNameIsString; PkgNameIsString; VersionIsString; Also37IsBoolean;
   DryrunIsBoolean; VersionHasPattern; TokenFileExists].

Section PreconditionDefs.

Variable E : env.
Variables repo_name pkg_name version also37 dryrun : pyval.

(** A value that is not a string does not have the version pattern. *)
Definition violated (c : precondition) : bool :=
  match c with
  | RepoNameIsString => negb (is_str repo_name)
  | PkgNameIsString => negb (is_str pkg_name)
  | VersionIsString => negb (is_str version)
  | Also37IsBoolean => negb (is_bool also37)
  | DryrunIsBoolean => negb (is_bool dryrun)
  | VersionHasPattern =>
      match version with
      | PyStr s => negb (Re.re_match version_pattern s)
      | _ => true
      end
  | TokenFileExists => negb (token_file_exists E)
  end.

(** The message that names a precondition. *)
Definition message (c : precondition) : string :=
  match c with
  | RepoNameIsString => "repo_name is not a string object"
  | PkgNameIsString => "pkg_name is not a string object"
  | VersionIsString => "version is not a string object"
  | Also37IsBoolean => "also37 is not a boolean object"
  | DryrunIsBoolean => "dryrun is not a boolean object"
  | VersionHasPattern =>
      ("version=" ++ match version with PyStr s => s | _ => "" end
         ++ " does not have X.Y.Z semantic-versioning pattern")%string
  | TokenFileExists =>
      ("Anaconda token file " ++ ANACONDA_TOKEN_FILE E
         ++ " does not exist")%string
  end.

(** What has happened when the error for [c] is raised: nothing, or
    the one look at the token file. *)
Definition trace_at (c : precondition) : list event :=
  match c with
  | TokenFileExists => [IsFile (ANACONDA_TOKEN_FILE E)]
  | _ => []
  end.

Definition first_violated : option precondition :=
  find violated check_order.

End PreconditionDefs.

(** ** The classification of events *)

(** [s] begins with [p]. *)
Fixpoint starts_with (p s : string) : bool :=
  match p, s with
  | EmptyString, _ => true
  | String a p', String b s' => Ascii.eqb a b && starts_with p' s'
  | String _ _, EmptyString => false
  end.

(** The steps of a release, told apart by the tool a command runs. *)
Inductive step_kind : Type :=
| Clone | Stamp | Build | Convert | Upload | Purge | RemoveTree | Other.

Definition kind_of (ev : event) : step_kind :=
  match ev with
  | FileRevision _ _ _ => Stamp
  | Rmtree _ => RemoveTree
  | OsCall cmd =>
      if starts_with "git clone " cmd then Clone
      else if starts_with "conda build --python " cmd then Build
      else if starts_with "conda convert " cmd then Convert
      else if starts_with "anaconda " cmd then Upload
      else if (cmd =? purge_cmd)%string then Purge
      else Other
  | _ => Other
  end.

Definition is_clone (ev : event) : bool :=
  match kind_of ev with Clone => true | _ => false end.

Definition is_purge (ev : event) : bool :=
  match kind_of ev with Purge => true | _ => false end.

Definition is_rmtree (ev : event) : bool :=
  match ev with
  | Rmtree _ => true
  | _ => false
  end.

Definition is_mkdir (ev : event) : bool :=
  match ev with
  | Mkdir _ => true
  | _ => false
  end.

(** Stamping, building, converting, uploading and purging. *)
Definition after_clone_step (ev : event) : bool :=
  match kind_of ev with
  | Stamp | Build | Convert | Upload | Purge => true
  | _ => false
  end.

(** As [env_fine], but the clone command fails. *)
Definition env_clone_fails : env := {|
  home_dir := home_dir env_fine;
  returns := fun _ ev => negb (is_clone ev);
  answer_bool := answer_bool env_fine;
  answer_str := answer_str env_fine
|}.

(** The commands of one round of the loop and of a whole release, for
    the local platform [local_platform]. *)
Definition iteration_cmds
    (E : env) (pkg_name version local_platform pyver : string) : list string :=
  build_cmd pyver
  :: map (fun platform =>
            convert_cmd platform
              (path_join BUILDS_DIR
                 [local_platform; artifact_name pkg_name version pyver]))
         (filter (fun platform => negb (platform =? local_platform)%string)
                 OS_PLATFORMS)
  ++ map (fun platform =>
            upload_cmd E
              (path_join BUILDS_DIR
                 [platform; artifact_name pkg_name version pyver]))
         OS_PLATFORMS.

Definition release_cmds
    (E : env) (repo_name pkg_name version : string) (pyvers : list string)
    (local_platform : string) : list string :=
  clone_cmd version repo_name
  :: flat_map (iteration_cmds E pkg_name version local_platform) pyvers
  ++ [purge_cmd].

(** The three version stamps. *)
Definition stamps (pkg_name version : string) : list event :=
  [FileRevision "conda.recipe/meta.yaml" "version: .*"
     ("version: " ++ version)%string;
   FileRevision "setup.py" "version = .*"
     ("version = " ++ dquote ++ version ++ dquote)%string;
   FileRevision (path_join pkg_name ["__init__.py"]) "__version__ = .*"
     ("__version__ = " ++ dquote ++ version ++ dquote)%string].

Definition is_build_cmd (cmd : string) : bool :=
  starts_with "conda build --python " cmd.

(** ** The version pattern in the words of the specification *)

Definition is_digit (c : ascii) : bool := Re.in_range "0" "9" c.

Fixpoint all_digits (s : string) : bool :=
  match s with
  | EmptyString => true
  | String c r => is_digit c && all_digits r
  end.

(** A non-negative integer in decimal: one digit or more. *)
Definition is_integer (s : string) : bool :=
  negb (s =? "")%string && all_digits s.

(** Three dot-separated non-negative integers and nothing else. *)
Definition is_xyz (s : string) : bool :=
  match split_on "." s with
  | [x; y; z] => is_integer x && is_integer y && is_integer z
  | _ => false
  end.

Definition newline : string := String "010" "".

(** [s] contains the character [c]. *)
Fixpoint has_char (c : ascii) (s : string) : bool :=
  match s with
  | EmptyString => false
  | String c' r => Ascii.eqb c' c || has_char c r
  end.

(** A non-empty run of digits. *)
Definition digits (s : string) : Prop :=
  s <> "" /\ all_digits s = true.

(** ** Further vocabulary for the ordering and safety properties *)

(** Every fallible call of the script [s], run from the history [h],
    returns. *)
Fixpoint returned (E : env) (h s : list event) : bool :=
  match s with
  | [] => true
  | ev :: r =>
      (negb (fallible ev) || returns E h ev) && returned E (h ++ [ev]) r
  end.

(** The steps of the loop: build, convert, upload. *)
Definition is_loop_step (ev : event) : bool :=
  match kind_of ev with
  | Build | Convert | Upload => true
  | _ => false
  end.

Fixpoint str_rev (s : string) : string :=
  match s with
  | EmptyString => EmptyString
  | String c r => (str_rev r ++ String c EmptyString)%string
  end.

(** [s] ends with [suffix]. *)
Definition ends_with (suffix s : string) : bool :=
  starts_with (str_rev suffix) (str_rev s).

(** The end of the artifact names built for the interpreter [pyver]. *)
Definition artifact_suffix (pyver : string) : string :=
  ("-py" ++ drop_dots pyver ++ "_0.tar.bz2")%string.

(** An upload of an artifact built for the interpreter [pyver]. *)
Definition is_upload_for (pyver : string) (ev : event) : bool :=
  match ev with
  | OsCall cmd =>
      starts_with "anaconda " cmd && ends_with (artifact_suffix pyver) cmd
  | _ => false
  end.

(** As [env_fine], but the working directory is there already. *)
Definition env_dir_exists : env := {|
  home_dir := home_dir env_fine;
  returns := returns env_fine;
  answer_bool := fun _ _ => true;
  answer_str := answer_str env_fine
|}.

(** As [env_fine], but every upload fails. *)
Definition env_upload_fails : env := {|
  home_dir := home_dir env_fine;
  returns := fun _ ev =>
    match kind_of ev with
    | Upload => false
    | _ => true
    end;
  answer_bool := answer_bool env_fine;
  answer_str := answer_str env_fine
|}.

(** The look at the token file and the plan. *)
Definition shown_plan
    (E : env) (repo_name pkg_name version : string) (also37 : bool)
    : list event :=
  IsFile (ANACONDA_TOKEN_FILE E)
  :: plan_script E repo_name pkg_name version (python_versions also37).

(** What the clock answers after the plan. *)
Definition start_time
    (E : env) (repo_name pkg_name version : string) (also37 : bool)
    : string :=
  answer_str E (shown_plan E repo_name pkg_name version also37) Asctime.

(** What the directory test answers. *)
Definition working_dir_existed
    (E : env) (repo_name pkg_name version : string) (also37 : bool) : bool :=
  answer_bool E
    (shown_plan E repo_name pkg_name version also37
     ++ [Asctime;
         Print (": Package-Builder is starting at "
                  ++ start_time E repo_name pkg_name version also37)%string])
    (IsDir (WORKING_DIR E)).

Definition is_convert_cmd (cmd : string) : bool :=
  starts_with "conda convert " cmd.

Definition is_upload_cmd (cmd : string) : bool :=
  starts_with "anaconda " cmd.

(** The local platform is one of the configured platforms. *)
Definition is_configured (local_platform : string) : bool :=
  existsb (String.eqb local_platform) OS_PLATFORMS.

(** * Proofs *)

Section Scripts.

Variable E : env.

(** *** Running scripts *)

Lemma run_script_app (s1 s2 : list event) (h : list event) :
  run_script E (s1 ++ s2) h =
  (run_script E s1 ;; run_script E s2) h.
Proof.
  revert h. induction s1 as [|ev s1 IH]; intro h.
  - reflexivity.
  - simpl. unfold bind.
    destruct (perform E ev h) as [h' [[]|e]]; [|reflexivity].
    rewrite IH. reflexivity.
Qed.

(** A script either runs to its end, or stops right after the first
    call that does not return. *)
Lemma run_script_spec (s h : list event) :
  run_script E s h = (h ++ s, Ok tt)
  \/ exists pre ev post,
       s = pre ++ ev :: post /\ fallible ev = true
       /\ run_script E s h = (h ++ pre ++ [ev], Err (Raised ev)).
Proof.
  revert h. induction s as [|ev s IH]; intro h.
  - left. simpl. unfold ret. now rewrite app_nil_r.
  - simpl. unfold bind, perform.
    destruct (fallible ev && negb (returns E h ev)) eqn:F.
    + right. exists [], ev, s. repeat split.
      apply andb_true_iff in F. tauto.
    + destruct (IH (h ++ [ev])) as [R | (pre & ev' & post & -> & Hf & R)].
      * left. rewrite R. now rewrite <- app_assoc.
      * right. exists (ev :: pre), ev', post. repeat split; auto.
        rewrite R. now rewrite <- app_assoc.
Qed.

(** *** One statement against one event of a script *)

Lemma step_perform ev (k : M unit) rest h :
  k (h ++ [ev]) = run_script E rest (h ++ [ev]) ->
  (perform E ev ;; k) h = run_script E (ev :: rest) h.
Proof.
  intro H. simpl. unfold bind, perform.
  destruct (fallible ev && negb (returns E h ev)); [reflexivity | exact H].
Qed.

Lemma last_perform ev h : perform E ev h = run_script E [ev] h.
Proof.
  simpl. unfold bind, perform, ret.
  destruct (fallible ev && negb (returns E h ev)); reflexivity.
Qed.

Lemma step_ask_bool ev (k : bool -> M unit) rest h :
  fallible ev = false ->
  k (answer_bool E h ev) (h ++ [ev]) = run_script E rest (h ++ [ev]) ->
  (b <- ask_bool E ev ;; k b) h = run_script E (ev :: rest) h.
Proof.
  intros F H. simpl. unfold bind, perform, ask_bool. rewrite F. exact H.
Qed.

Lemma step_ask_str ev (k : string -> M unit) rest h :
  fallible ev = false ->
  k (answer_str E h ev) (h ++ [ev]) = run_script E rest (h ++ [ev]) ->
  (v <- ask_str E ev ;; k v) h = run_script E (ev :: rest) h.
Proof.
  intros F H. simpl. unfold bind, perform, ask_str. rewrite F. exact H.
Qed.

Lemma step_call_str ev (k : string -> M unit) rest h :
  fallible ev = true ->
  k (answer_str E h ev) (h ++ [ev]) = run_script E rest (h ++ [ev]) ->
  (v <- call_str E ev ;; k v) h = run_script E (ev :: rest) h.
Proof.
  intros F H. simpl. unfold bind, perform, call_str. rewrite F. simpl.
  destruct (returns E h ev); [exact H | reflexivity].
Qed.

Lemma step_script (m k : M unit) s rest h :
  (forall h', m h' = run_script E s h') ->
  k (h ++ s) = run_script E rest (h ++ s) ->
  (m ;; k) h = run_script E (s ++ rest) h.
Proof.
  intros Hm Hk. rewrite run_script_app. unfold bind. rewrite Hm.
  destruct (run_script_spec s h) as [R | (pre & ev & post & _ & _ & R)];
    rewrite R; [exact Hk | reflexivity].
Qed.

Lemma cond_perform_script (b : bool) ev h :
  (if b then perform E ev else ret tt) h =
  run_script E (if b then [ev] else []) h.
Proof. destruct b; [apply last_perform | reflexivity]. Qed.

(** *** Loops *)

Lemma for_each_script {A} (l : list A) (body : A -> M unit)
    (f : A -> list event) :
  (forall x, In x l -> forall h, body x h = run_script E (f x) h) ->
  forall h, for_each l body h = run_script E (flat_map f l) h.
Proof.
  induction l as [|x l IH]; intros Hb h.
  - reflexivity.
  - simpl. apply step_script.
    + apply Hb. now left.
    + apply IH. intros y Hy. apply Hb. now right.
Qed.

Lemma for_each_perform {A} (l : list A) (f : A -> event) h :
  for_each l (fun x => perform E (f x)) h = run_script E (map f l) h.
Proof.
  revert h. induction l as [|x l IH]; intro h.
  - reflexivity.
  - simpl. apply step_perform. apply IH.
Qed.

Lemma for_each_skip {A} (l : list A) (skip : A -> bool) (f : A -> event) h :
  for_each l (fun x => if skip x then ret tt else perform E (f x)) h =
  run_script E (map f (filter (fun x => negb (skip x)) l)) h.
Proof.
  revert h. induction l as [|x l IH]; intro h.
  - reflexivity.
  - simpl. destruct (skip x); simpl.
    + unfold bind, ret. apply IH.
    + apply step_perform. apply IH.
Qed.

Lemma pkgfile_python_versions (also37 : bool) pkg_name version pyver :
  In pyver (python_versions also37) ->
  pkgfile pkg_name version pyver = Ok (artifact_name pkg_name version pyver).
Proof.
  destruct also37; simpl; intros H;
    repeat (destruct H as [<- | H]; [reflexivity|]); destruct H.
Qed.

Lemma build_convert_upload_script pkg_name version local_platform pyver h :
  pkgfile pkg_name version pyver = Ok (artifact_name pkg_name version pyver) ->
  build_convert_upload E pkg_name version local_platform pyver h =
  run_script E (iteration_script E pkg_name version local_platform pyver) h.
Proof.
  intro Hp. unfold build_convert_upload, iteration_script, print, os_call.
  cbn [app]. do 3 apply step_perform.
  unfold bind at 1, lift. rewrite Hp.
  apply step_script.
  { intro h'. unfold convert_all, converts, os_call. apply for_each_skip. }
  apply step_perform.
  unfold upload_all, uploads, os_call. apply for_each_perform.
Qed.

Lemma loop_is_script (also37 : bool) pkg_name version local_platform h :
  for_each (python_versions also37)
    (build_convert_upload E pkg_name version local_platform) h =
  run_script E
    (loop_script E pkg_name version local_platform (python_versions also37)) h.
Proof.
  apply for_each_script. intros pyver Hin h'.
  apply build_convert_upload_script.
  now apply pkgfile_python_versions with (also37 := also37).
Qed.

Lemma show_plan_script repo_name pkg_name version pyvers h :
  show_plan E repo_name pkg_name version pyvers h =
  run_script E (plan_script E repo_name pkg_name version pyvers) h.
Proof.
  unfold show_plan, plan_script, print.
  do 7 apply step_perform. apply last_perform.
Qed.

(** [release_steps] is the script [steps_script], at the answers the
    environment gives along the way. *)
Lemma release_steps_script
    (also37 : bool) repo_name pkg_name version (h : list event) :
  exists now existed local_platform now',
    local_platform =
      answer_str E
        (h ++ before_platform_query E repo_name pkg_name version now existed)
        CondaPlatformName
    /\ release_steps E repo_name pkg_name version (python_versions also37) h =
       run_script E
         (steps_script E repo_name pkg_name version (python_versions also37)
            now existed local_platform now') h.
Proof.
  do 4 eexists.
  split; cycle 1.
  - unfold release_steps, steps_script, acquire_script, stamp_script,
      cleanup_script, time_asctime, os_path_isdir, print, shutil_rmtree,
      os_mkdir, os_chdir, os_call, file_revision, conda_platform_name.
    rewrite <- !app_assoc. cbn [app].
    apply step_ask_str; [reflexivity|].
    apply step_perform.
    apply step_ask_bool; [reflexivity|].
    apply step_script; [intro; apply cond_perform_script|].
    do 9 apply step_perform.
    apply step_call_str; [reflexivity|].
    apply step_script; [intro; apply loop_is_script|].
    do 4 apply step_perform.
    apply step_ask_str; [reflexivity|].
    apply last_perform.
  - f_equal. unfold before_platform_query, acquire_script, stamp_script.
    cbn [firstn]. rewrite <- !app_assoc. reflexivity.
Qed.

Lemma release_is_script repo_name pkg_name version (also37 dryrun : bool) :
  Re.re_match version_pattern version = true ->
  token_file_exists E = true ->
  exists now existed local_platform now',
    local_platform =
      answer_str E
        (IsFile (ANACONDA_TOKEN_FILE E)
         :: plan_script E repo_name pkg_name version (python_versions also37)
         ++ before_platform_query E repo_name pkg_name version now existed)
        CondaPlatformName
    /\ release E (PyStr repo_name) (PyStr pkg_name) (PyStr version)
         (PyBool also37) (PyBool dryrun) [] =
       run_script E
         (release_script E repo_name pkg_name version also37 dryrun
            now existed local_platform now') [].
Proof.
  intros Hv Ht.
  assert (Hhead : forall (k : M unit) rest,
             k ([] ++ [IsFile (ANACONDA_TOKEN_FILE E)]) =
             run_script E rest ([] ++ [IsFile (ANACONDA_TOKEN_FILE E)]) ->
             release E (PyStr repo_name) (PyStr pkg_name) (PyStr version)
               (PyBool also37) (PyBool dryrun) [] = 
             (b <- ask_bool E (IsFile (ANACONDA_TOKEN_FILE E));;
              if negb b then raise (ValueError "") else k) [] ->
             release E (PyStr repo_name) (PyStr pkg_name) (PyStr version)
               (PyBool also37) (PyBool dryrun) [] =
             run_script E (IsFile (ANACONDA_TOKEN_FILE E) :: rest) []).
  { intros k rest Hk ->. apply step_ask_bool; [reflexivity|].
    fold (token_file_exists E). rewrite Ht. exact Hk. }
  destruct dryrun.
  - exists "", false. eexists. exists "". split; [reflexivity|].
    eapply Hhead.
    + unfold release_script.
      apply step_script; [intro; apply show_plan_script|].
      apply last_perform.
    + unfold release, check_str, check_bool, bind at 1 2 3 4 5, ret,
        os_path_isfile.
      rewrite Hv. cbn [negb].
      unfold bind at 1 3, ask_bool.
      fold (token_file_exists E). rewrite Ht. reflexivity.
  - destruct (release_steps_script also37 repo_name pkg_name version
                ([] ++ [IsFile (ANACONDA_TOKEN_FILE E)]
                    ++ plan_script E repo_name pkg_name version
                         (python_versions also37)))
      as (now & existed & lp & now' & Hlp & Heq).
    exists now, existed, lp, now'. split; [exact Hlp|].
    eapply Hhead.
    + unfold release_script.
      apply step_script; [intro; apply show_plan_script|].
      rewrite <- app_assoc. exact Heq.
    + unfold release, check_str, check_bool, bind at 1 2 3 4 5, ret,
        os_path_isfile.
      rewrite Hv. cbn [negb].
      unfold bind at 1 3, ask_bool.
      fold (token_file_exists E). rewrite Ht. reflexivity.
Qed.

End Scripts.

Section Preconditions.

Variable E : env.
Variables repo_name pkg_name version also37 dryrun : pyval.

Lemma release_first_violated (c : precondition) :
  first_violated E repo_name pkg_name version also37 dryrun = Some c ->
  release E repo_name pkg_name version also37 dryrun [] =
  (trace_at E c, Err (ValueError (message E version c))).
Proof.
  unfold first_violated, check_order, violated, message, trace_at.
  destruct repo_name as [r| | |];
    try (cbn; intros [= <-]; reflexivity).
  destruct pkg_name as [p| | |];
    try (cbn; intros [= <-]; reflexivity).
  destruct version as [v| | |];
    try (cbn; intros [= <-]; reflexivity).
  destruct also37 as [|a| |];
    try (cbn; intros [= <-]; reflexivity).
  destruct dryrun as [|d| |];
    try (cbn; intros [= <-]; reflexivity).
  cbn [find is_str is_bool negb].
  unfold release, check_str, check_bool, bind at 1 2 3 4 5, ret,
    os_path_isfile.
  destruct (Re.re_match version_pattern v); cbn [negb].
  - unfold bind at 1, ask_bool. fold (token_file_exists E).
    destruct (token_file_exists E); cbn [negb].
    + discriminate.
    + intros [= <-]. reflexivity.
  - intros [= <-]. reflexivity.
Qed.

Lemma first_violated_none :
  first_violated E repo_name pkg_name version also37 dryrun = None ->
  exists r p v a d,
    repo_name = PyStr r /\ pkg_name = PyStr p /\ version = PyStr v
    /\ also37 = PyBool a /\ dryrun = PyBool d
    /\ Re.re_match version_pattern v = true
    /\ token_file_exists E = true.
Proof.
  unfold first_violated, check_order, violated.
  destruct repo_name as [r| | |]; try (cbn; discriminate).
  destruct pkg_name as [p| | |]; try (cbn; discriminate).
  destruct version as [v| | |]; try (cbn; discriminate).
  destruct also37 as [|a| |]; try (cbn; discriminate).
  destruct dryrun as [|d| |]; try (cbn; discriminate).
  cbn [find is_str is_bool negb].
  destruct (Re.re_match version_pattern v) eqn:Hv; cbn [negb];
    [|discriminate].
  destruct (token_file_exists E) eqn:Ht; cbn [negb]; [|discriminate].
  intros _. exists r, p, v, a, d. repeat split; assumption.
Qed.

Lemma first_violated_is_violated (c : precondition) :
  first_violated E repo_name pkg_name version also37 dryrun = Some c -> violated E repo_name pkg_name version also37 dryrun c = true.
Proof. intro H. apply find_some in H. apply H. Qed.

End Preconditions.

(** ** Outcome of a call that passes its preconditions *)

Section Outcome.

Variable E : env.
Variables repo_name pkg_name version : string.
Variables also37 dryrun : bool.

Hypothesis version_ok : Re.re_match version_pattern version = true.
Hypothesis token_ok : token_file_exists E = true.

(** The trace is the script, or the script cut right after the call
    that raised. *)
Lemma release_outcome (tr : list event) (res : result unit) :
  release E (PyStr repo_name) (PyStr pkg_name) (PyStr version)
    (PyBool also37) (PyBool dryrun) [] = (tr, res) ->
  exists now existed local_platform now',
    local_platform =
      answer_str E
        (IsFile (ANACONDA_TOKEN_FILE E)
         :: plan_script E repo_name pkg_name version (python_versions also37)
         ++ before_platform_query E repo_name pkg_name version now existed)
        CondaPlatformName
    /\ ((tr = release_script E repo_name pkg_name version also37 dryrun
                now existed local_platform now'
         /\ res = Ok tt)
        \/ exists pre ev post,
             release_script E repo_name pkg_name version also37 dryrun
               now existed local_platform now' = pre ++ ev :: post
             /\ fallible ev = true
             /\ tr = pre ++ [ev]
             /\ res = Err (Raised ev)).
Proof.
  intro Hrun.
  destruct (release_is_script E repo_name pkg_name version also37 dryrun
              version_ok token_ok)
    as (now & existed & lp & now' & Hlp & Heq).
  exists now, existed, lp, now'. split; [exact Hlp|].
  rewrite Heq in Hrun.
  destruct (run_script_spec E
              (release_script E repo_name pkg_name version also37 dryrun
                 now existed lp now') [])
    as [R | (pre & ev & post & Hs & Hf & R)];
    rewrite R in Hrun; cbn [app] in Hrun; injection Hrun as <- <-.
  - left. split; reflexivity.
  - right. exists pre, ev, post. repeat split; assumption.
Qed.

End Outcome.

(** ** Lists, initial segments and the classification of events *)

Lemma prefix_of_refl {A} (l : list A) : prefix_of l l.
Proof. exists []. now rewrite app_nil_r. Qed.

Lemma prefix_of_cut {A} (pre post : list A) (x : A) :
  prefix_of (pre ++ [x]) (pre ++ x :: post).
Proof. exists post. now rewrite <- app_assoc. Qed.

Lemma prefix_of_filter {A} (f : A -> bool) (l1 l2 : list A) :
  prefix_of l1 l2 -> prefix_of (filter f l1) (filter f l2).
Proof. intros [r ->]. exists (filter f r). apply filter_app. Qed.

Lemma os_calls_app (l1 l2 : list event) :
  os_calls (l1 ++ l2) = os_calls l1 ++ os_calls l2.
Proof.
  induction l1 as [|ev l1 IH]; [reflexivity|].
  destruct ev; simpl; rewrite IH; reflexivity.
Qed.

Lemma prefix_of_os_calls (l1 l2 : list event) :
  prefix_of l1 l2 -> prefix_of (os_calls l1) (os_calls l2).
Proof. intros [r ->]. exists (os_calls r). apply os_calls_app. Qed.

Lemma os_calls_map {A} (f : A -> string) (l : list A) :
  os_calls (map (fun x => OsCall (f x)) l) = map f l.
Proof. induction l as [|x l IH]; simpl; [|rewrite IH]; reflexivity. Qed.

Lemma os_calls_flat_map {A} (f : A -> list event) (l : list A) :
  os_calls (flat_map f l) = flat_map (fun x => os_calls (f x)) l.
Proof.
  induction l as [|x l IH]; simpl; [|rewrite os_calls_app, IH]; reflexivity.
Qed.

Lemma filter_none {A} (f : A -> bool) (l : list A) :
  forallb (fun x => negb (f x)) l = true -> filter f l = [].
Proof.
  induction l as [|x l IH]; simpl; [reflexivity|].
  intro H. apply andb_true_iff in H. destruct H as [Hx Hl].
  destruct (f x); [discriminate | auto].
Qed.

Lemma forallb_flat_map {A B} (P : B -> bool) (f : A -> list B) (l : list A) :
  (forall x, forallb P (f x) = true) -> forallb P (flat_map f l) = true.
Proof.
  intro H. induction l as [|x l IH]; simpl; [reflexivity|].
  rewrite forallb_app, H, IH. reflexivity.
Qed.

Lemma forallb_map_all {A B} (P : B -> bool) (f : A -> B) (l : list A) :
  (forall x, P (f x) = true) -> forallb P (map f l) = true.
Proof.
  intro H. induction l as [|x l IH]; simpl; [reflexivity|].
  rewrite H, IH. reflexivity.
Qed.

(** An occurrence of [x] between two lists free of [P] is found at one
    place only. *)
Lemma split_at_unique {A} (P : A -> bool) (x : A) (l1 l2 pre post : list A) :
  P x = true ->
  forallb (fun y => negb (P y)) l1 = true ->
  forallb (fun y => negb (P y)) l2 = true ->
  l1 ++ x :: l2 = pre ++ x :: post ->
  pre = l1.
Proof.
  intros Hx. revert pre. induction l1 as [|a l1 IH]; intros pre H1 H2 Heq.
  - destruct pre as [|y pre]; [reflexivity|].
    simpl in Heq. injection Heq as _ Heq. subst l2.
    rewrite forallb_app in H2. simpl in H2. rewrite Hx in H2.
    simpl in H2. rewrite andb_false_r in H2. discriminate.
  - simpl in H1. apply andb_true_iff in H1. destruct H1 as [Ha H1].
    destruct pre as [|y pre].
    + simpl in Heq. injection Heq as -> _. rewrite Hx in Ha. discriminate.
    + simpl in Heq. injection Heq as <- Heq. f_equal. now apply IH.
Qed.

(** The one element with [P] of a list is found at one place only. *)
Lemma only_occurrence {A} (P : A -> bool) (x y : A) (l1 l2 pre post : list A) :
  P x = true ->
  P y = true ->
  forallb (fun z => negb (P z)) l1 = true ->
  forallb (fun z => negb (P z)) l2 = true ->
  l1 ++ x :: l2 = pre ++ y :: post ->
  pre = l1.
Proof.
  intros Hx Hy. revert pre. induction l1 as [|a l1 IH]; intros pre H1 H2 Heq.
  - destruct pre as [|b pre]; [reflexivity|].
    simpl in Heq. injection Heq as _ Heq. subst l2.
    rewrite forallb_app in H2. simpl in H2. rewrite Hy in H2.
    simpl in H2. rewrite andb_false_r in H2. discriminate.
  - simpl in H1. apply andb_true_iff in H1. destruct H1 as [Ha H1].
    destruct pre as [|b pre].
    + simpl in Heq. injection Heq as -> _. rewrite Hy in Ha. discriminate.
    + simpl in Heq. injection Heq as <- Heq. f_equal. now apply IH.
Qed.

(** A trace that follows [l1 ++ x :: l2] and contains [x] has gone
    through all of [l1]. *)
Lemma prefix_of_reaches {A} (P : A -> bool) (x : A) (l1 l2 tr : list A) :
  P x = true ->
  forallb (fun y => negb (P y)) l1 = true ->
  prefix_of tr (l1 ++ x :: l2) ->
  In x tr ->
  prefix_of (l1 ++ [x]) tr.
Proof.
  intros Hx. revert tr. induction l1 as [|a l1 IH]; intros tr H1 [r Hr] Hin.
  - destruct tr as [|y tr]; [destruct Hin|].
    simpl in Hr. injection Hr as <- _. exists tr. reflexivity.
  - simpl in H1. apply andb_true_iff in H1. destruct H1 as [Ha H1].
    destruct tr as [|y tr]; [destruct Hin|].
    simpl in Hr. injection Hr as <- Hr.
    destruct Hin as [-> | Hin]; [rewrite Hx in Ha; discriminate|].
    destruct (IH tr H1 (ex_intro _ r Hr) Hin) as [r' ->].
    exists r'. reflexivity.
Qed.

Section ScriptFacts.

Variable E : env.
Variables repo_name pkg_name version : string.

Lemma kind_of_clone : kind_of (OsCall (clone_cmd version repo_name)) = Clone.
Proof. reflexivity. Qed.

Lemma kind_of_build pyver : kind_of (OsCall (build_cmd pyver)) = Build.
Proof. reflexivity. Qed.

Lemma kind_of_convert platform pkgpath :
  kind_of (OsCall (convert_cmd platform pkgpath)) = Convert.
Proof. reflexivity. Qed.

Lemma kind_of_upload pkgpath : kind_of (OsCall (upload_cmd E pkgpath)) = Upload.
Proof. reflexivity. Qed.

Lemma kind_of_purge : kind_of (OsCall purge_cmd) = Purge.
Proof. reflexivity. Qed.

(** The loop consists of prints, builds, converts and uploads. *)
Lemma forallb_loop_script (P : event -> bool) local_platform pyvers :
  (forall line, P (Print line) = true) ->
  (forall pyver, P (OsCall (build_cmd pyver)) = true) ->
  (forall platform pkgpath,
      P (OsCall (convert_cmd platform pkgpath)) = true) ->
  (forall pkgpath, P (OsCall (upload_cmd E pkgpath)) = true) ->
  forallb P (loop_script E pkg_name version local_platform pyvers) = true.
Proof.
  intros Hp Hb Hc Hu. apply forallb_flat_map. intro pyver.
  unfold iteration_script, converts, uploads.
  rewrite !forallb_app. cbn [forallb].
  rewrite !Hp, Hb. cbn [andb].
  rewrite !forallb_map_all; auto.
Qed.

Lemma release_invalid (also37 dryrun : bool) :
  Re.re_match version_pattern version = false
  \/ token_file_exists E = false ->
  exists c,
    release E (PyStr repo_name) (PyStr pkg_name) (PyStr version)
      (PyBool also37) (PyBool dryrun) [] =
    (trace_at E c,
     Err (ValueError (message E (PyStr version) c))).
Proof.
  intro H.
  destruct (Re.re_match version_pattern version) eqn:Hv.
  - destruct H as [H | Ht]; [discriminate|].
    exists TokenFileExists. apply release_first_violated.
    unfold first_violated, check_order.
    cbn [find violated is_str is_bool negb]. rewrite Hv, Ht. reflexivity.
  - exists VersionHasPattern. apply release_first_violated.
    unfold first_violated, check_order.
    cbn [find violated is_str is_bool negb]. rewrite Hv. reflexivity.
Qed.

Lemma acquire_script_clone now existed :
  acquire_script E repo_name version now existed =
  before_clone E version now existed ++ [OsCall (clone_cmd version repo_name)].
Proof.
  unfold acquire_script, before_clone. rewrite <- !app_assoc. reflexivity.
Qed.

Lemma no_clone_in_plan pyvers :
  forallb (fun ev => negb (is_clone ev))
    (plan_script E repo_name pkg_name version pyvers) = true.
Proof. reflexivity. Qed.

Lemma no_clone_before_clone now existed :
  forallb (fun ev => negb (is_clone ev)) (before_clone E version now existed) = true.
Proof. destruct existed; reflexivity. Qed.

Lemma no_clone_after_clone local_platform pyvers now' :
  forallb (fun ev => negb (is_clone ev))
    (stamp_script repo_name pkg_name version
     ++ loop_script E pkg_name version local_platform pyvers
     ++ cleanup_script E now') = true.
Proof.
  rewrite !forallb_app. rewrite forallb_loop_script; try reflexivity.
Qed.

Lemma no_purge_before_cleanup pyvers now existed local_platform :
  forallb (fun ev => negb (is_purge ev))
    (IsFile (ANACONDA_TOKEN_FILE E)
     :: plan_script E repo_name pkg_name version pyvers
     ++ acquire_script E repo_name version now existed
     ++ stamp_script repo_name pkg_name version
     ++ loop_script E pkg_name version local_platform pyvers
     ++ [Print ": Package-Builder is cleaning-up"]) = true.
Proof.
  cbn [forallb]. rewrite !forallb_app.
  rewrite forallb_loop_script; try reflexivity.
  destruct existed; reflexivity.
Qed.

Lemma dry_run_script_quiet (also37 : bool) now existed local_platform now' :
  forallb (fun ev => negb (side_effect ev))
    (release_script E repo_name pkg_name version also37 true
       now existed local_platform now') = true.
Proof. reflexivity. Qed.

End ScriptFacts.

Section ScriptContents.

Variable E : env.
Variables repo_name pkg_name version : string.
Variable also37 : bool.
Variables (now : string) (existed : bool) (local_platform now' : string).

Lemma os_calls_release_script (dryrun : bool) :
  os_calls (release_script E repo_name pkg_name version also37 dryrun
              now existed local_platform now') =
  if dryrun then []
  else release_cmds E repo_name pkg_name version (python_versions also37)
         local_platform.
Proof.
  destruct dryrun; [reflexivity|].
  unfold release_script, steps_script, release_cmds, loop_script.
  cbn [os_calls]. rewrite !os_calls_app, os_calls_flat_map.
  replace (os_calls (plan_script E repo_name pkg_name version
                       (python_versions also37))) with (@nil string)
    by reflexivity.
  replace (os_calls (acquire_script E repo_name version now existed))
    with [clone_cmd version repo_name] by (destruct existed; reflexivity).
  cbn [app os_calls stamp_script cleanup_script stamp_meta stamp_setup
         stamp_init].
  do 2 f_equal.
  apply flat_map_ext. intro pyver.
  unfold iteration_script, iteration_cmds, converts, uploads.
  cbn [app os_calls]. rewrite !os_calls_app. cbn [os_calls app].
  rewrite !os_calls_map. reflexivity.
Qed.

Lemma stamps_of_release_script (dryrun : bool) :
  filter is_file_revision
    (release_script E repo_name pkg_name version also37 dryrun
       now existed local_platform now') =
  if dryrun then [] else stamps pkg_name version.
Proof.
  destruct dryrun; [reflexivity|].
  unfold release_script, steps_script.
  cbn [filter is_file_revision]. rewrite !filter_app.
  replace (filter is_file_revision
             (plan_script E repo_name pkg_name version
                (python_versions also37))) with (@nil event)
    by reflexivity.
  replace (filter is_file_revision
             (acquire_script E repo_name version now existed))
    with (@nil event) by (destruct existed; reflexivity).
  rewrite (filter_none is_file_revision (loop_script _ _ _ _ _))
    by (apply forallb_loop_script; reflexivity).
  reflexivity.
Qed.

Lemma builds_of_release_cmds :
  filter is_build_cmd
    (release_cmds E repo_name pkg_name version (python_versions also37)
       local_platform) =
  map build_cmd (python_versions also37).
Proof.
  unfold release_cmds. cbn [filter]. 
  replace (is_build_cmd (clone_cmd version repo_name)) with false
    by reflexivity.
  rewrite filter_app. cbn [filter]. 
  replace (is_build_cmd purge_cmd) with false by reflexivity.
  rewrite app_nil_r.
  induction (python_versions also37) as [|pyver l IH]; [reflexivity|].
  cbn [flat_map map]. rewrite filter_app, IH.
  unfold iteration_cmds at 1. cbn [filter].
  replace (is_build_cmd (build_cmd pyver)) with true by reflexivity.
  rewrite filter_app.
  rewrite !(filter_none is_build_cmd)
    by (apply forallb_map_all; reflexivity).
  reflexivity.
Qed.

End ScriptContents.

(** [split_on] on a string without the separator, and across one. *)
Lemma split_on_absent (c : ascii) (s : string) :
  has_char c s = false -> split_on c s = [s].
Proof.
  induction s as [|c' r IH]; [reflexivity|].
  cbn [has_char split_on]. intro H. apply orb_false_iff in H.
  destruct H as [Hc Hr]. rewrite Hc, (IH Hr). reflexivity.
Qed.

Lemma split_on_first (c : ascii) (a r : string) :
  has_char c a = false ->
  split_on c (a ++ String c r)%string = a :: split_on c r.
Proof.
  induction a as [|c' a IH]; intro H.
  - cbn. rewrite Ascii.eqb_refl. reflexivity.
  - cbn [has_char] in H. apply orb_false_iff in H. destruct H as [Hc Ha].
    cbn [append split_on]. rewrite Hc, (IH Ha). reflexivity.
Qed.

Lemma str_append_assoc (a b c : string) :
  ((a ++ b) ++ c = a ++ b ++ c)%string.
Proof. induction a as [|x a IH]; cbn; [|rewrite IH]; reflexivity. Qed.

Lemma drop_dots_absent (s : string) :
  has_char "." s = false -> drop_dots s = s.
Proof.
  induction s as [|c r IH]; [reflexivity|].
  cbn [has_char drop_dots]. intro H. apply orb_false_iff in H.
  destruct H as [Hc Hr]. rewrite Hc, (IH Hr). reflexivity.
Qed.

(** *** What the pattern of line 84 accepts *)

Section PatternFacts.

Local Open Scope string_scope.

Lemma str_append_nil (a : string) : a ++ "" = a.
Proof. induction a as [|x a IH]; cbn; [|rewrite IH]; reflexivity. Qed.

(** [[lo-hi]+] followed by [r]: a non-empty run of characters of the
    range, then a match of [r]. *)
Lemma match_range_plus (lo hi : ascii) (r : list Re.item) (b : bool)
    (s : string) :
  Re.match_here (Re.RangePlus lo hi :: r) b s = true <->
  exists c ds rest,
    s = String c ds ++ rest
    /\ forallb (Re.in_range lo hi) (list_ascii_of_string (String c ds)) = true
    /\ Re.match_here r false rest = true.
Proof.
  cbn [Re.match_here]. clear b.
  induction s as [|c s IH].
  - split; [discriminate|]. intros (c & ds & rest & H & _). discriminate.
  - split.
    + intro H. apply andb_true_iff in H. destruct H as [Hc H].
      apply orb_true_iff in H. destruct H as [H | H].
      * apply IH in H. destruct H as (c' & ds & rest & -> & Hds & Hr).
        exists c, (String c' ds), rest. repeat split; auto.
        cbn [list_ascii_of_string forallb] in *. now rewrite Hc.
      * exists c, "", s. repeat split; auto.
        cbn. now rewrite Hc.
    + intros (c' & ds & rest & Heq & Hds & Hr).
      cbn [append] in Heq. injection Heq as <- ->.
      cbn [list_ascii_of_string forallb] in Hds.
      apply andb_true_iff in Hds. destruct Hds as [Hc Hds].
      rewrite Hc. cbn [andb]. apply orb_true_iff.
      destruct ds as [|c' ds].
      * right. exact Hr.
      * left. apply IH. exists c', ds, rest. repeat split; auto.
Qed.

Lemma match_lit (c : ascii) (r : list Re.item) (b : bool) (s : string) :
  Re.match_here (Re.Lit c :: r) b s = true <->
  exists rest, s = String c rest /\ Re.match_here r false rest = true.
Proof.
  cbn [Re.match_here]. destruct s as [|c' s].
  - split; [discriminate|]. intros (rest & H & _). discriminate.
  - split.
    + intro H. apply andb_true_iff in H. destruct H as [Hc H].
      apply Ascii.eqb_eq in Hc. subst c'. now exists s.
    + intros (rest & [= -> ->] & H). now rewrite Ascii.eqb_refl.
Qed.

Lemma at_dollar_spec (s : string) :
  Re.at_dollar s = true <-> s = "" \/ s = newline.
Proof.
  destruct s as [|c [|c' s]]; cbn.
  - tauto.
  - rewrite Ascii.eqb_eq. unfold newline.
    split; [intros ->; tauto | intros [H | [= ->]]; [discriminate | reflexivity]].
  - split; [discriminate | intros [H | H]; discriminate].
Qed.

Lemma all_digits_forallb (s : string) :
  all_digits s = forallb (Re.in_range "0" "9") (list_ascii_of_string s).
Proof. induction s as [|c s IH]; cbn; [|rewrite <- IH]; reflexivity. Qed.

Lemma is_integer_digits (s : string) : is_integer s = true <-> digits s.
Proof.
  unfold is_integer, digits. rewrite andb_true_iff, negb_true_iff.
  rewrite String.eqb_neq. tauto.
Qed.

(** The subjects the pattern matches: three runs of digits separated
    by dots, then the end of the string or one final newline. *)
Lemma version_pattern_matches (s : string) :
  Re.re_match version_pattern s = true <->
  exists x y z tail,
    s = x ++ "." ++ y ++ "." ++ z ++ tail
    /\ digits x /\ digits y /\ digits z
    /\ (tail = "" \/ tail = newline).
Proof.
  unfold Re.re_match, version_pattern.
  change (Re.match_here
            (Re.Caret :: Re.RangePlus "0" "9" :: Re.Lit "."
             :: Re.RangePlus "0" "9" :: Re.Lit "."
             :: [Re.RangePlus "0" "9"; Re.Dollar]) true s)
    with (Re.match_here
            (Re.RangePlus "0" "9" :: Re.Lit "."
             :: Re.RangePlus "0" "9" :: Re.Lit "."
             :: [Re.RangePlus "0" "9"; Re.Dollar]) true s).
  rewrite match_range_plus. split.
  - intros (c1 & d1 & r1 & -> & H1 & M).
    apply match_lit in M. destruct M as (r2 & -> & M).
    apply match_range_plus in M. destruct M as (c2 & d2 & r3 & -> & H2 & M).
    apply match_lit in M. destruct M as (r4 & -> & M).
    apply match_range_plus in M. destruct M as (c3 & d3 & tail & -> & H3 & M).
    cbn [Re.match_here] in M. rewrite andb_true_r in M.
    apply at_dollar_spec in M.
    exists (String c1 d1), (String c2 d2), (String c3 d3), tail.
    rewrite <- all_digits_forallb in H1, H2, H3.
    unfold digits. repeat split; try discriminate; auto.
  - intros (x & y & z & tail & -> & [Nx Dx] & [Ny Dy] & [Nz Dz] & Ht).
    destruct x as [|c1 d1]; [contradiction|].
    destruct y as [|c2 d2]; [contradiction|].
    destruct z as [|c3 d3]; [contradiction|].
    rewrite all_digits_forallb in Dx, Dy, Dz.
    exists c1, d1, ("." ++ String c2 d2 ++ "." ++ String c3 d3 ++ tail).
    split; [reflexivity|]. split; [exact Dx|].
    apply match_lit. eexists. split; [reflexivity|].
    apply match_range_plus.
    exists c2, d2, ("." ++ String c3 d3 ++ tail).
    split; [reflexivity|]. split; [exact Dy|].
    apply match_lit. eexists. split; [reflexivity|].
    apply match_range_plus.
    exists c3, d3, tail.
    split; [reflexivity|]. split; [exact Dz|].
    cbn [Re.match_here]. rewrite andb_true_r. now apply at_dollar_spec.
Qed.

(** [split_on] and [str_join] are inverse. *)
Lemma split_on_nonempty (c : ascii) (s : string) : split_on c s <> [].
Proof.
  destruct s as [|c' s]; cbn; [discriminate|].
  destruct (Ascii.eqb c' c); [discriminate|].
  destruct (split_on c s); discriminate.
Qed.

Lemma str_join_cons (sep x y : string) (l : list string) :
  str_join sep (x :: y :: l) = x ++ sep ++ str_join sep (y :: l).
Proof. reflexivity. Qed.

Lemma join_split_on (c : ascii) (s : string) :
  str_join (String c "") (split_on c s) = s.
Proof.
  induction s as [|c' s IH]; [reflexivity|].
  cbn [split_on].
  pose proof (split_on_nonempty c s) as Hn.
  destruct (split_on c s) as [|w ws]; [contradiction|].
  destruct (Ascii.eqb_spec c' c) as [-> | Hne].
  - rewrite str_join_cons, IH. reflexivity.
  - destruct ws as [|w' ws].
    + cbn in IH. cbn. now rewrite IH.
    + rewrite str_join_cons in *. rewrite <- IH. reflexivity.
Qed.

Lemma digits_no_dot (s : string) : all_digits s = true -> has_char "." s = false.
Proof.
  induction s as [|c s IH]; [reflexivity|].
  cbn [all_digits has_char]. intro H. apply andb_true_iff in H.
  destruct H as [Hc Hs]. rewrite (IH Hs), orb_false_r.
  destruct (Ascii.eqb_spec c "."); [subst c; discriminate Hc | reflexivity].
Qed.

(** The definition by [split_on] says: three runs of digits with a dot
    between them. *)
Lemma is_xyz_spec (s : string) :
  is_xyz s = true <->
  exists x y z, s = x ++ "." ++ y ++ "." ++ z
                /\ digits x /\ digits y /\ digits z.
Proof.
  unfold is_xyz. split.
  - pose proof (join_split_on "." s) as J.
    destruct (split_on "." s) as [|x [|y [|z [|w l]]]]; try discriminate.
    intro H. apply andb_true_iff in H. destruct H as [H Hz].
    apply andb_true_iff in H. destruct H as [Hx Hy].
    exists x, y, z. rewrite !is_integer_digits in *.
    cbn [str_join] in J. now rewrite <- J.
  - intros (x & y & z & -> & Hx & Hy & Hz).
    pose proof Hx as [_ Dx]. pose proof Hy as [_ Dy]. pose proof Hz as [_ Dz].
    cbn [append].
    rewrite (split_on_first "." x _ (digits_no_dot x Dx)).
    rewrite (split_on_first "." y _ (digits_no_dot y Dy)).
    rewrite (split_on_absent "." z (digits_no_dot z Dz)).
    apply is_integer_digits in Hx, Hy, Hz. now rewrite Hx, Hy, Hz.
Qed.

(** The pattern accepts the versions X.Y.Z and, besides, each of them
    followed by one newline. *)
Theorem version_pattern_spec (s : string) :
  Re.re_match version_pattern s = true <->
  is_xyz s = true \/ exists s', s = s' ++ newline /\ is_xyz s' = true.
Proof.
  rewrite version_pattern_matches. split.
  - intros (x & y & z & tail & -> & Hx & Hy & Hz & [-> | ->]).
    + left. apply is_xyz_spec. exists x, y, z.
      rewrite str_append_nil. auto.
    + right. exists (x ++ "." ++ y ++ "." ++ z). split.
      * rewrite !str_append_assoc. reflexivity.
      * apply is_xyz_spec. exists x, y, z. auto.
  - intros [H | (s' & -> & H)]; apply is_xyz_spec in H;
      destruct H as (x & y & z & -> & Hx & Hy & Hz).
    + exists x, y, z, "". rewrite str_append_nil.
      repeat (split; [first [reflexivity | assumption]|]). now left.
    + exists x, y, z, newline. rewrite !str_append_assoc.
      repeat (split; [first [reflexivity | assumption]|]). now right.
Qed.

End PatternFacts.

(** A version the pattern does not match is rejected before anything
    happens, whatever the other arguments are. *)
Lemma release_rejects_unmatched_version
    (E : env) (repo_name pkg_name also37 dryrun : pyval) (version : string) :
  Re.re_match version_pattern version = false ->
  exists msg,
    release E repo_name pkg_name (PyStr version) also37 dryrun [] =
    ([], Err (ValueError msg)).
Proof.
  intro Hv. unfold release, check_str, check_bool.
  destruct repo_name as [r| | |]; try (eexists; reflexivity).
  destruct pkg_name as [p| | |]; try (eexists; reflexivity).
  destruct also37 as [|a| |]; try (eexists; reflexivity).
  destruct dryrun as [|d| |]; try (eexists; reflexivity).
  unfold bind at 1 2 3 4 5, ret. rewrite Hv. eexists. reflexivity.
Qed.

(** So a version is rejected unless it is X.Y.Z or X.Y.Z followed by one
    newline. *)
Corollary release_rejects_other_versions
    (E : env) (repo_name pkg_name also37 dryrun : pyval) (version : string) :
  is_xyz version = false ->
  (forall s', version = (s' ++ newline)%string -> is_xyz s' = false) ->
  exists msg,
    release E repo_name pkg_name (PyStr version) also37 dryrun [] =
    ([], Err (ValueError msg)).
Proof.
  intros Hx Hn. apply release_rejects_unmatched_version.
  destruct (Re.re_match version_pattern version) eqn:Hv; [|reflexivity].
  apply version_pattern_spec in Hv.
  destruct Hv as [Hv | (s' & Heq & Hv)].
  - rewrite Hx in Hv. discriminate.
  - rewrite (Hn s' Heq) in Hv. discriminate.
Qed.

(** Right-nested appends, conses pulled to the front. *)
Ltac norm_app := repeat (progress (cbn [app]) || rewrite <- app_assoc).

(** In the script of a real release, a removal of a directory that
    comes after the working directory was made comes after the purge. *)
Lemma removal_after_mkdir
    (E : env) (repo_name pkg_name version : string) (also37 dryrun : bool)
    (now : string) (existed : bool) (local_platform now' : string)
    (pre rest : list event) (path : string) :
  release_script E repo_name pkg_name version also37 dryrun
    now existed local_platform now' = pre ++ Rmtree path :: rest ->
  In (Mkdir (WORKING_DIR E)) pre ->
  In (OsCall purge_cmd) pre.
Proof.
  intros Hs Hin.
  destruct dryrun.
  { exfalso.
    assert (F : forallb (fun ev => negb (is_rmtree ev))
                  (release_script E repo_name pkg_name version also37 true
                     now existed local_platform now') = true) by reflexivity.
    rewrite Hs, forallb_app in F. apply andb_true_iff in F.
    destruct F as [_ F]. discriminate F. }
  set (S1 := IsFile (ANACONDA_TOKEN_FILE E)
             :: plan_script E repo_name pkg_name version (python_versions also37)
             ++ [Asctime;
                 Print (": Package-Builder is starting at " ++ now)%string;
                 IsDir (WORKING_DIR E)]
             ++ (if existed then [Rmtree (WORKING_DIR E)] else [])).
  set (S2 := [Chdir (WORKING_DIR E);
              Print (": Package-Builder is cloning repository code for "
                       ++ version)%string;
              OsCall (clone_cmd version repo_name)]
             ++ stamp_script repo_name pkg_name version
             ++ loop_script E pkg_name version local_platform
                  (python_versions also37)
             ++ [Print ": Package-Builder is cleaning-up";
                 OsCall purge_cmd; Chdir (HOME_DIR E)]).
  set (S3 := [Asctime;
              Print (": Package-Builder is finishing at " ++ now')%string]).
  assert (Hshape :
            release_script E repo_name pkg_name version also37 false
              now existed local_platform now' =
            S1 ++ Mkdir (WORKING_DIR E)
               :: S2 ++ Rmtree (WORKING_DIR E) :: S3).
  { unfold release_script, steps_script, acquire_script, cleanup_script,
      S1, S2, S3.
    norm_app. reflexivity. }
  assert (H1 : forallb (fun ev => negb (is_mkdir ev)) S1 = true).
  { unfold S1. cbn [forallb]. rewrite !forallb_app.
    destruct existed; reflexivity. }
  assert (H2 : forallb (fun ev => negb (is_rmtree ev)) S2 = true).
  { unfold S2. rewrite !forallb_app.
    rewrite forallb_loop_script; reflexivity. }
  assert (H3 : forallb (fun ev => negb (is_rmtree ev)) S3 = true)
    by reflexivity.
  assert (Hpurge : In (OsCall purge_cmd) S2).
  { unfold S2. apply in_or_app. right. apply in_or_app. right.
    apply in_or_app. right. simpl. tauto. }
  rewrite Hshape in Hs. clearbody S1 S2 S3. clear Hshape.
  destruct (prefix_of_reaches is_mkdir (Mkdir (WORKING_DIR E)) S1
              (S2 ++ Rmtree (WORKING_DIR E) :: S3) pre eq_refl H1)
    as [pre2 Hpre]; [|exact Hin|].
  { exists (Rmtree path :: rest). exact Hs. }
  subst pre. rewrite <- !app_assoc in Hs. cbn [app] in Hs.
  apply app_inv_head in Hs. injection Hs as Hs.
  assert (Hpath : pre2 = S2).
  { apply (only_occurrence is_rmtree (Rmtree (WORKING_DIR E)) (Rmtree path)
             S2 S3 pre2 rest eq_refl eq_refl H2 H3 Hs). }
  subst pre2. apply in_or_app. right. exact Hpurge.
Qed.

(** Every call on strings and booleans follows its script, whether it
    passes the preconditions or not. *)
Lemma release_follows_script
    (E : env) (repo_name pkg_name version : string) (also37 dryrun : bool)
    (tr : list event) (res : result unit) :
  release E (PyStr repo_name) (PyStr pkg_name) (PyStr version)
    (PyBool also37) (PyBool dryrun) [] = (tr, res) ->
  exists now existed local_platform now',
    local_platform =
      answer_str E
        (IsFile (ANACONDA_TOKEN_FILE E)
         :: plan_script E repo_name pkg_name version (python_versions also37)
         ++ before_platform_query E repo_name pkg_name version now existed)
        CondaPlatformName
    /\ prefix_of tr
         (release_script E repo_name pkg_name version also37 dryrun
            now existed local_platform now')
    /\ (res = Ok tt ->
        tr = release_script E repo_name pkg_name version also37 dryrun
               now existed local_platform now').
Proof.
  intro Hrun.
  destruct (Re.re_match version_pattern version) eqn:Hv;
    [destruct (token_file_exists E) eqn:Ht|].
  - destruct (release_outcome E repo_name pkg_name version also37 dryrun
                Hv Ht tr res Hrun)
      as (now & existed & lp & now' & Hlp & Hout).
    exists now, existed, lp, now'. split; [exact Hlp|].
    destruct Hout as [[-> ->] | (pre & ev & post & -> & _ & -> & ->)].
    + split; [apply prefix_of_refl | reflexivity].
    + split; [apply prefix_of_cut | discriminate].
  - destruct (release_invalid E repo_name pkg_name version also37 dryrun
                (or_intror Ht)) as [c Hc].
    rewrite Hc in Hrun. injection Hrun as <- <-.
    exists "", false. eexists. exists "". split; [reflexivity|].
    split; [|discriminate].
    destruct c; eexists; reflexivity.
  - destruct (release_invalid E repo_name pkg_name version also37 dryrun
                (or_introl Hv)) as [c Hc].
    rewrite Hc in Hrun. injection Hrun as <- <-.
    exists "", false. eexists. exists "". split; [reflexivity|].
    split; [|discriminate].
    destruct c; eexists; reflexivity.
Qed.

Lemma run_script_infallible (E : env) (s h : list event) :
  forallb (fun ev => negb (fallible ev)) s = true ->
  run_script E s h = (h ++ s, Ok tt).
Proof.
  intro H.
  destruct (run_script_spec E s h) as [R | (pre & ev & post & -> & Hf & _)];
    [exact R|].
  rewrite forallb_app in H. cbn [forallb] in H. rewrite Hf in H.
  cbn [negb andb] in H. rewrite andb_false_r in H. discriminate.
Qed.

(** ** The claims *)

(** Traces around the clone and the cleanup.  When a call ends with the
    exception of the clone command, the trace is the plan followed by
    the preparation of the working directory and ends with the clone
    command.  When the purge command occurs in a trace, the script of
    the whole loop precedes it; a removal of a directory after the
    working directory was made comes after the purge. *)
Lemma clone_and_cleanup_traces
    (E : env) (repo_name pkg_name version : string) (also37 dryrun : bool)
    (tr : list event) (res : result unit) :
  release E (PyStr repo_name) (PyStr pkg_name) (PyStr version)
    (PyBool also37) (PyBool dryrun) [] = (tr, res) ->
  (res = Err (Raised (OsCall (clone_cmd version repo_name))) ->
   exists now existed,
     tr = IsFile (ANACONDA_TOKEN_FILE E)
          :: plan_script E repo_name pkg_name version (python_versions also37)
          ++ acquire_script E repo_name version now existed
     /\ (exists head,
           tr = head ++ [Mkdir (WORKING_DIR E); Chdir (WORKING_DIR E);
                         Print (": Package-Builder is cloning repository code for "
                                  ++ version)%string;
                         OsCall (clone_cmd version repo_name)])
     /\ os_calls tr = [clone_cmd version repo_name]
     /\ forallb (fun ev => negb (after_clone_step ev)) tr = true)
  /\ (In (OsCall purge_cmd) tr ->
      exists now existed local_platform,
        prefix_of
          (IsFile (ANACONDA_TOKEN_FILE E)
           :: plan_script E repo_name pkg_name version (python_versions also37)
           ++ acquire_script E repo_name version now existed
           ++ stamp_script repo_name pkg_name version
           ++ loop_script E pkg_name version local_platform
                (python_versions also37)
           ++ [Print ": Package-Builder is cleaning-up"; OsCall purge_cmd])
          tr)
  /\ (forall pre post path,
        tr = pre ++ Rmtree path :: post ->
        In (Mkdir (WORKING_DIR E)) pre ->
        In (OsCall purge_cmd) pre).
Proof.
  intro Hrun. split; [|split].
  - (* the clone fails *)
    intros ->.
    assert (Hv : Re.re_match version_pattern version = true).
    { destruct (Re.re_match version_pattern version) eqn:Hv; [reflexivity|].
      destruct (release_invalid E repo_name pkg_name version also37 dryrun
                  (or_introl Hv)) as [c Hc].
      rewrite Hc in Hrun. discriminate Hrun. }
    assert (Ht : token_file_exists E = true).
    { destruct (token_file_exists E) eqn:Ht; [reflexivity|].
      destruct (release_invalid E repo_name pkg_name version also37 dryrun
                  (or_intror Ht)) as [c Hc].
      rewrite Hc in Hrun. discriminate Hrun. }
    destruct (release_outcome E repo_name pkg_name version also37 dryrun
                Hv Ht tr _ Hrun)
      as (now & existed & lp & now' & _ & Hout).
    destruct Hout as [[_ Hres] | (pre & ev & post & Hs & _ & -> & Hres)];
      [discriminate|].
    injection Hres as <-.
    assert (Hpre : dryrun = false
                   /\ pre = IsFile (ANACONDA_TOKEN_FILE E)
                            :: plan_script E repo_name pkg_name version
                                 (python_versions also37)
                            ++ before_clone E version now existed).
    { destruct dryrun.
      - exfalso.
        assert (F : forallb (fun ev => negb (is_clone ev))
                      (release_script E repo_name pkg_name version also37 true
                         now existed lp now') = true) by reflexivity.
        rewrite Hs, forallb_app in F. apply andb_true_iff in F.
        destruct F as [_ F]. simpl in F. discriminate.
      - split; [reflexivity|].
        refine (split_at_unique is_clone
                  (OsCall (clone_cmd version repo_name)) _
                  (stamp_script repo_name pkg_name version
                   ++ loop_script E pkg_name version lp (python_versions also37)
                   ++ cleanup_script E now')
                  pre post _ _ _ _).
        + reflexivity.
        + rewrite app_comm_cons. rewrite forallb_app. cbn [forallb].
          rewrite no_clone_in_plan, no_clone_before_clone. reflexivity.
        + apply no_clone_after_clone.
        + rewrite <- Hs. unfold release_script, steps_script.
          rewrite acquire_script_clone.
          cbn [app]. rewrite <- !app_assoc. reflexivity. }
    destruct Hpre as [-> ->].
    exists now, existed.
    rewrite acquire_script_clone.
    split; [|split; [|split]].
    + cbn [app]. rewrite <- !app_assoc. reflexivity.
    + exists (IsFile (ANACONDA_TOKEN_FILE E)
              :: plan_script E repo_name pkg_name version (python_versions also37)
              ++ [Asctime;
                  Print (": Package-Builder is starting at " ++ now)%string;
                  IsDir (WORKING_DIR E)]
              ++ (if existed then [Rmtree (WORKING_DIR E)] else [])).
      unfold before_clone. norm_app. reflexivity.
    + cbn [app]. rewrite <- !app_assoc. cbn [os_calls].
      rewrite !os_calls_app. destruct existed; reflexivity.
    + cbn [app]. rewrite <- !app_assoc. cbn [forallb].
      rewrite !forallb_app.
      destruct existed; reflexivity.
  - (* the purge runs *)
    intro Hin.
    destruct (release_follows_script E repo_name pkg_name version also37
                dryrun tr res Hrun)
      as (now & existed & lp & now' & _ & Hpref & _).
    destruct dryrun.
    + exfalso. destruct Hpref as [r Hr].
      assert (F : forallb (fun ev => negb (is_purge ev))
                    (release_script E repo_name pkg_name version also37 true
                       now existed lp now') = true) by reflexivity.
      rewrite Hr, forallb_app in F. apply andb_true_iff in F.
      destruct F as [F _]. rewrite forallb_forall in F.
      specialize (F _ Hin). discriminate.
    + exists now, existed, lp.
      unfold release_script, steps_script, cleanup_script in Hpref.
      pose proof (no_purge_before_cleanup E repo_name pkg_name version
                    (python_versions also37) now existed lp) as F.
      match goal with
      | |- prefix_of ?l tr =>
          replace l with
            ((IsFile (ANACONDA_TOKEN_FILE E)
              :: plan_script E repo_name pkg_name version (python_versions also37)
              ++ acquire_script E repo_name version now existed
              ++ stamp_script repo_name pkg_name version
              ++ loop_script E pkg_name version lp (python_versions also37)
              ++ [Print ": Package-Builder is cleaning-up"])
             ++ [OsCall purge_cmd])
      end.
      2:{ cbn [app]. rewrite <- !app_assoc. reflexivity. }
      eapply (prefix_of_reaches is_purge); [reflexivity | exact F | | exact Hin].
      match goal with
      | |- prefix_of tr ?l =>
          replace l with
            (release_script E repo_name pkg_name version also37 false
               now existed lp now'); [exact Hpref|]
      end.
      unfold release_script, steps_script, cleanup_script.
      cbn [app]. rewrite <- !app_assoc. reflexivity.
  - (* a removal after the working directory was made *)
    intros pre post path -> Hin.
    destruct (release_follows_script E repo_name pkg_name version also37
                dryrun _ res Hrun)
      as (now & existed & lp & now' & _ & [r Hr] & _).
    rewrite <- app_assoc in Hr. cbn [app] in Hr.
    exact (removal_after_mkdir E repo_name pkg_name version also37 dryrun
             now existed lp now' pre (post ++ r) path Hr Hin).
Qed.

(** C6.  The version-stamping step rewrites three files and no others:
    the file revisions a call performs are an initial segment of the
    three stamps (meta.yaml with [version: .*], setup.py with
    [version = .*], the package's __init__.py with [__version__ = .*]),
    and all three once a real release has returned.  The replacements
    are spelled out character by character: in the last two the version
    stands between two double quotes, the character of code 34. *)
Theorem C6_version_stamping
    (E : env) (repo_name pkg_name version : string) (also37 dryrun : bool)
    (tr : list event) (res : result unit) :
  release E (PyStr repo_name) (PyStr pkg_name) (PyStr version)
    (PyBool also37) (PyBool dryrun) [] = (tr, res) ->
  let three :=
    [FileRevision "conda.recipe/meta.yaml" "version: .*"
       ("version: " ++ version)%string;
     FileRevision "setup.py" "version = .*"
       ("version = " ++ String "034" (version ++ String "034" ""))%string;
     FileRevision (path_join pkg_name ["__init__.py"]) "__version__ = .*"
       ("__version__ = " ++ String "034" (version ++ String "034" ""))%string] in
  prefix_of (filter is_file_revision tr) three
  /\ (res = Ok tt -> dryrun = false -> filter is_file_revision tr = three)
  /\ (pkg_name <> ""%string -> endswith_sep pkg_name = false ->
      path_join pkg_name ["__init__.py"] = (pkg_name ++ "/__init__.py")%string)
  /\ nat_of_ascii "034" = 34.
Proof.
  intros Hrun three.
  destruct (release_follows_script E repo_name pkg_name version also37 dryrun
              tr res Hrun)
    as (now & existed & lp & now' & _ & Hpre & Hok).
  split; [|split].
  - apply (prefix_of_filter is_file_revision) in Hpre.
    rewrite stamps_of_release_script in Hpre.
    destruct dryrun; [|exact Hpre].
    destruct Hpre as [r Hr]. symmetry in Hr. apply app_eq_nil in Hr.
    destruct Hr as [-> _]. exists three. reflexivity.
  - intros Hres ->. rewrite (Hok Hres). apply stamps_of_release_script.
  - split; [|reflexivity].
    intros Hne Hsep. unfold path_join, path_join2. cbn [fold_left startswith_sep].
    cbn. rewrite Hsep.
    destruct pkg_name as [|c r]; [contradiction|reflexivity].
Qed.

(** C7.  The commands a call runs are an initial segment of: the clone,
    then for each interpreter version the build, one convert for every
    configured platform other than the local one, and one upload (token
    file, --force) for every configured platform, then the purge; a real
    release that returns has run them all.  The local platform is the
    answer of [conda_platform_name].  Every command line is spelled out:
    the converter gets the platform, the output folder and the local
    artifact; the uploader gets the token file, the user, --force and
    the artifact under the platform's folder. *)
Theorem C7_convert_and_upload_per_platform
    (E : env) (repo_name pkg_name version : string) (also37 dryrun : bool)
    (tr : list event) (res : result unit) :
  release E (PyStr repo_name) (PyStr pkg_name) (PyStr version)
    (PyBool also37) (PyBool dryrun) [] = (tr, res) ->
  exists now existed local_platform,
    local_platform =
      answer_str E
        (IsFile (ANACONDA_TOKEN_FILE E)
         :: plan_script E repo_name pkg_name version (python_versions also37)
         ++ before_platform_query E repo_name pkg_name version now existed)
        CondaPlatformName
    /\ let artifact := fun pyver =>
         (pkg_name ++ "-" ++ version ++ "-py" ++ drop_dots pyver
            ++ "_0.tar.bz2")%string in
       let expected :=
         ("git clone --branch " ++ version
            ++ " --depth 1 https://github.com/PSLmodels/" ++ repo_name
            ++ "/")%string
         :: flat_map
              (fun pyver =>
                 ("conda build --python " ++ pyver
                    ++ " --old-build-string --channel pslmodels --override-channels --no-anaconda-upload --output-folder pkgbld_output conda.recipe")%string
                 :: map (fun platform =>
                           ("conda convert -p " ++ platform
                              ++ " -o pkgbld_output "
                              ++ path_join "pkgbld_output"
                                   [local_platform; artifact pyver])%string)
                      (filter
                         (fun platform =>
                            negb (platform =? local_platform)%string)
                         ["osx-64"; "linux-64"; "win-32"; "win-64"]%string)
                 ++ map (fun platform =>
                           ("anaconda -t " ++ ANACONDA_TOKEN_FILE E
                              ++ " upload -u pslmodels --force "
                              ++ path_join "pkgbld_output"
                                   [platform; artifact pyver])%string)
                      ["osx-64"; "linux-64"; "win-32"; "win-64"]%string)
              (python_versions also37)
         ++ ["conda build purge"%string] in
       prefix_of (os_calls tr) expected
       /\ (res = Ok tt -> dryrun = false -> os_calls tr = expected)
       /\ expected =
          release_cmds E repo_name pkg_name version (python_versions also37)
            local_platform
       /\ NoDup OS_PLATFORMS
       /\ (forall pyver, In pyver (python_versions also37) ->
           pkgfile pkg_name version pyver = Ok (artifact pyver))
       /\ (forall platform pkgpath,
           convert_cmd platform pkgpath =
           ("conda convert -p " ++ platform ++ " -o pkgbld_output "
              ++ pkgpath)%string)
       /\ (forall pkgpath,
           upload_cmd E pkgpath =
           ("anaconda -t " ++ ANACONDA_TOKEN_FILE E
              ++ " upload -u pslmodels --force " ++ pkgpath)%string)
       /\ (forall platform file,
           In platform OS_PLATFORMS -> startswith_sep file = false ->
           path_join "pkgbld_output" [platform; file] =
           ("pkgbld_output/" ++ platform ++ "/" ++ file)%string).
Proof.
  intro Hrun.
  destruct (release_follows_script E repo_name pkg_name version also37 dryrun
              tr res Hrun)
    as (now & existed & lp & now' & Hlp & Hpre & Hok).
  exists now, existed, lp. split; [exact Hlp|].
  apply prefix_of_os_calls in Hpre. rewrite os_calls_release_script in Hpre.
  cbv zeta.
  split; [|split; [|split; [|split; [|split; [|split; [|split]]]]]].
  - destruct dryrun; [|exact Hpre].
    destruct Hpre as [r Hr]. symmetry in Hr. apply app_eq_nil in Hr.
    destruct Hr as [-> _]. eexists. reflexivity.
  - intros Hres ->. rewrite (Hok Hres). apply os_calls_release_script.
  - reflexivity.
  - unfold OS_PLATFORMS.
    repeat (constructor; [simpl; intuition discriminate|]). constructor.
  - intros pyver Hin.
    now apply pkgfile_python_versions with (also37 := also37).
  - reflexivity.
  - reflexivity.
  - intros platform file Hin Hfile.
    unfold path_join. cbn [fold_left]. unfold path_join2 at 1.
    rewrite Hfile.
    cbn in Hin. destruct Hin as [<- | [<- | [<- | [<- | []]]]]; reflexivity.
Qed.

(** C4.  A dry run that passes the preconditions looks at the token
    file, prints the plan (repository, package, version, interpreter
    versions, channel, token file) and the quitting line, and returns:
    no event of the trace changes the file system, runs a command or
    reaches the network.  And a call that returns normally without being
    a dry run has run the whole release, up to the finishing line. *)
Theorem C4_dry_run
    (E : env) (repo_name pkg_name version : string) (also37 : bool) :
  Re.re_match version_pattern version = true ->
  token_file_exists E = true ->
  release E (PyStr repo_name) (PyStr pkg_name) (PyStr version)
    (PyBool also37) (PyBool true) [] =
  ([IsFile (ANACONDA_TOKEN_FILE E);
    Print ": Package-Builder will build model packages for:";
    Print (":   repository_name = " ++ repo_name)%string;
    Print (":   package_name = " ++ pkg_name)%string;
    Print (":   model_version = " ++ version)%string;
    Print (":   python_versions = "
             ++ repr_str_list (python_versions also37))%string;
    Print ": Package-Builder will upload model packages to:";
    Print (":   Anaconda channel = " ++ ANACONDA_CHANNEL)%string;
    Print (":   using token in file = " ++ ANACONDA_TOKEN_FILE E)%string;
    Print ": Package-Builder is quitting"],
   Ok tt)
  /\ forallb (fun ev => negb (side_effect ev))
       (fst (release E (PyStr repo_name) (PyStr pkg_name) (PyStr version)
               (PyBool also37) (PyBool true) [])) = true
  /\ (forall (dryrun : bool) (tr : list event),
        release E (PyStr repo_name) (PyStr pkg_name) (PyStr version)
          (PyBool also37) (PyBool dryrun) [] = (tr, Ok tt) ->
        dryrun = false ->
        exists now existed local_platform now',
          tr = IsFile (ANACONDA_TOKEN_FILE E)
               :: plan_script E repo_name pkg_name version
                    (python_versions also37)
               ++ acquire_script E repo_name version now existed
               ++ stamp_script repo_name pkg_name version
               ++ loop_script E pkg_name version local_platform
                    (python_versions also37)
               ++ cleanup_script E now').
Proof.
  intros Hv Ht.
  assert (Hdry :
            release E (PyStr repo_name) (PyStr pkg_name) (PyStr version)
              (PyBool also37) (PyBool true) [] =
            (release_script E repo_name pkg_name version also37 true
               "" false "" "", Ok tt)).
  { destruct (release_is_script E repo_name pkg_name version also37 true Hv Ht)
      as (now & existed & lp & now' & _ & Heq).
    rewrite Heq. apply (run_script_infallible E _ []). reflexivity. }
  split; [exact Hdry | split].
  - rewrite Hdry. reflexivity.
  - intros dryrun tr Hrun ->.
    destruct (release_outcome E repo_name pkg_name version also37 false
                Hv Ht tr (Ok tt) Hrun)
      as (now & existed & lp & now' & _ & Hout).
    exists now, existed, lp, now'.
    destruct Hout as [[-> _] | (pre & ev & post & _ & _ & _ & Hres)];
      [reflexivity | discriminate].
Qed.

(** C2.  With the flag true the interpreter versions are the base list
    followed by the one version 3.7, without duplicates; with the flag
    false they are the base list.  A call that passes its preconditions
    shows this list in its plan, and a real release that returns has
    built for exactly these versions, in order. *)
Theorem C2_python_versions
    (E : env) (repo_name pkg_name version : string) (also37 dryrun : bool)
    (tr : list event) (res : result unit) :
  Re.re_match version_pattern version = true ->
  token_file_exists E = true ->
  release E (PyStr repo_name) (PyStr pkg_name) (PyStr version)
    (PyBool also37) (PyBool dryrun) [] = (tr, res) ->
  python_versions true = BASE_PYTHON_VERSIONS ++ ["3.7"%string]
  /\ python_versions false = BASE_PYTHON_VERSIONS
  /\ ~ In "3.7"%string BASE_PYTHON_VERSIONS
  /\ NoDup (python_versions also37)
  /\ length (python_versions true) = S (length BASE_PYTHON_VERSIONS)
  /\ In (Print (":   python_versions = "
                  ++ repr_str_list
                       (if also37 then BASE_PYTHON_VERSIONS ++ ["3.7"%string]
                        else BASE_PYTHON_VERSIONS))%string) tr
  /\ (res = Ok tt -> dryrun = false ->
      filter is_build_cmd (os_calls tr) =
      map build_cmd
        (if also37 then BASE_PYTHON_VERSIONS ++ ["3.7"%string]
         else BASE_PYTHON_VERSIONS)).
Proof.
  intros Hv Ht Hrun.
  split; [reflexivity|]. split; [reflexivity|].
  split; [simpl; intuition discriminate|].
  split.
  { destruct also37; simpl;
      repeat (constructor; [simpl; intuition discriminate|]); constructor. }
  split; [reflexivity|].
  destruct (release_outcome E repo_name pkg_name version also37 dryrun
              Hv Ht tr res Hrun)
    as (now & existed & lp & now' & _ & Hout).
  change (if also37 then BASE_PYTHON_VERSIONS ++ ["3.7"%string]
          else BASE_PYTHON_VERSIONS) with (python_versions also37).
  split.
  - assert (Hfour : exists rest,
               release_script E repo_name pkg_name version also37 dryrun
                 now existed lp now' =
               [IsFile (ANACONDA_TOKEN_FILE E);
                Print ": Package-Builder will build model packages for:";
                Print (":   repository_name = " ++ repo_name)%string;
                Print (":   package_name = " ++ pkg_name)%string;
                Print (":   model_version = " ++ version)%string;
                Print (":   python_versions = "
                         ++ repr_str_list (python_versions also37))%string;
                Print ": Package-Builder will upload model packages to:";
                Print (":   Anaconda channel = " ++ ANACONDA_CHANNEL)%string;
                Print (":   using token in file = "
                         ++ ANACONDA_TOKEN_FILE E)%string]
               ++ rest).
    { eexists. unfold release_script, plan_script. cbn [app]. reflexivity. }
    destruct Hfour as [rest Hs].
    destruct Hout as [[-> _] | (pre & ev & post & Hs' & Hf & -> & _)].
    + rewrite Hs. apply in_or_app. left. simpl. tauto.
    + rewrite Hs in Hs'.
      (* the call that raised comes after the nine infallible events *)
      do 9 (destruct pre as [|? pre];
            [cbn [app] in Hs'; injection Hs' as <-; discriminate Hf
            |cbn [app] in Hs'; injection Hs' as <- Hs']).
      simpl. tauto.
  - intros -> ->.
    destruct Hout as [[-> _] | (pre & ev & post & _ & _ & _ & Hres)];
      [|discriminate].
    rewrite os_calls_release_script. apply builds_of_release_cmds.
Qed.

(** C3.  The artifact file name is
    <package>-<version>-py<interpreter without its dot>_0.tar.bz2; for
    taxcalc, 0.22.2 and 3.7 it is taxcalc-0.22.2-py37_0.tar.bz2. *)
Theorem C3_artifact_filename (pkg_name version major minor : string) :
  has_char "." major = false ->
  has_char "." minor = false ->
  pkgfile pkg_name version (major ++ "." ++ minor)%string =
  Ok (pkg_name ++ "-" ++ version ++ "-py" ++ major ++ minor ++ "_0.tar.bz2")%string
  /\ pkgfile "taxcalc" "0.22.2" "3.7" = Ok "taxcalc-0.22.2-py37_0.tar.bz2"%string
  /\ (forall also37 pyver, In pyver (python_versions also37) ->
      pkgfile pkg_name version pyver =
      Ok (pkg_name ++ "-" ++ version ++ "-py" ++ drop_dots pyver
            ++ "_0.tar.bz2")%string).
Proof.
  intros Hmajor Hminor. split; [|split].
  - unfold pkgfile, pystr_of. cbn [append].
    rewrite (split_on_first "." major minor Hmajor).
    rewrite (split_on_absent "." minor Hminor). cbn [nth_error].
    rewrite str_append_assoc. reflexivity.
  - reflexivity.
  - intros also37 pyver Hin.
    now apply pkgfile_python_versions with (also37 := also37).
Qed.

(** C8.  A call with a repository name, package name or version that is
    not a string, with a flag that is not a boolean, or with the token
    file absent raises ValueError with the message of a precondition
    that is violated, and messages tell the preconditions apart; at that
    point nothing has happened but, at most, the look at the token file.
    When only the token file is wrong, the error is the token-file
    error. *)
Theorem C8_precondition_errors
    (E : env) (repo_name pkg_name version also37 dryrun : pyval) :
  is_str repo_name = false \/ is_str pkg_name = false
  \/ is_str version = false \/ is_bool also37 = false
  \/ is_bool dryrun = false \/ token_file_exists E = false ->
  (exists c,
      violated E repo_name pkg_name version also37 dryrun c = true
      /\ release E repo_name pkg_name version also37 dryrun [] =
         (trace_at E c, Err (ValueError (message E version c)))
      /\ forallb (fun ev => negb (side_effect ev)) (trace_at E c) = true
      /\ (trace_at E c = [] \/ trace_at E c = [IsFile (ANACONDA_TOKEN_FILE E)])
      /\ (forall c', message E version c' = message E version c -> c' = c))
  /\ (is_str repo_name = true -> is_str pkg_name = true ->
      is_str version = true -> is_bool also37 = true ->
      is_bool dryrun = true ->
      violated E repo_name pkg_name version also37 dryrun VersionHasPattern
        = false ->
      release E repo_name pkg_name version also37 dryrun [] =
      ([IsFile (ANACONDA_TOKEN_FILE E)],
       Err (ValueError
              ("Anaconda token file " ++ ANACONDA_TOKEN_FILE E
                 ++ " does not exist")%string))).
Proof.
  intro Hbad.
  destruct (first_violated E repo_name pkg_name version also37 dryrun)
    as [c|] eqn:Hfirst.
  - split.
    + exists c. split; [|split; [|split; [|split]]].
      * now apply first_violated_is_violated in Hfirst.
      * now apply release_first_violated.
      * destruct c; reflexivity.
      * destruct c; auto.
      * intros c' Hm.
        destruct c, c'; try reflexivity; cbn in Hm; congruence.
    + intros H1 H2 H3 H4 H5 H6.
      assert (c = TokenFileExists) as ->.
      { unfold first_violated, check_order in Hfirst.
        cbn [find violated] in Hfirst. cbn [violated] in H6.
        rewrite H1, H2, H3, H4, H5 in Hfirst. cbn [negb] in Hfirst.
        rewrite H6 in Hfirst.
        destruct (negb (token_file_exists E)); congruence. }
      now apply release_first_violated in Hfirst.
  - exfalso.
    destruct (first_violated_none E repo_name pkg_name version also37 dryrun
                Hfirst)
      as (r & p & v & a & d & -> & -> & -> & -> & -> & _ & Ht).
    cbn in Hbad. rewrite Ht in Hbad. intuition discriminate.
Qed.

(** C9.  The preconditions are checked in the order repository name,
    package name, version, secondary flag, dry-run flag (types), version
    pattern, token file: the error raised is the one of the first
    violated precondition in that order, and a call that violates none
    goes on to the plan.  A version that is not a string never yields
    the pattern error. *)
Theorem C9_check_order
    (E : env) (repo_name pkg_name version also37 dryrun : pyval) :
  first_violated E repo_name pkg_name version also37 dryrun =
    find (violated E repo_name pkg_name version also37 dryrun)
      [RepoNameIsString; PkgNameIsString; VersionIsString; Also37IsBoolean;
       DryrunIsBoolean; VersionHasPattern; TokenFileExists]
  /\ match first_violated E repo_name pkg_name version also37 dryrun with
     | Some c =>
         release E repo_name pkg_name version also37 dryrun [] =
         (trace_at E c, Err (ValueError (message E version c)))
     | None =>
         exists tr res,
           release E repo_name pkg_name version also37 dryrun [] =
           (IsFile (ANACONDA_TOKEN_FILE E)
            :: Print ": Package-Builder will build model packages for:"
            :: tr, res)
           /\ forall msg, res <> Err (ValueError msg)
     end
  /\ (is_str version = false ->
      (exists c,
          (c = RepoNameIsString \/ c = PkgNameIsString \/ c = VersionIsString)
          /\ release E repo_name pkg_name version also37 dryrun [] =
             ([], Err (ValueError (message E version c))))
      /\ (is_str repo_name = true -> is_str pkg_name = true ->
          release E repo_name pkg_name version also37 dryrun [] =
          ([], Err (ValueError "version is not a string object")))
      /\ forall s,
          snd (release E repo_name pkg_name version also37 dryrun []) <>
          Err (ValueError
                 ("version=" ++ s
                    ++ " does not have X.Y.Z semantic-versioning pattern")%string)).
Proof.
  split; [reflexivity|]. split.
  - destruct (first_violated E repo_name pkg_name version also37 dryrun)
      as [c|] eqn:Hfirst.
    + now apply release_first_violated.
    + destruct (first_violated_none E repo_name pkg_name version also37 dryrun
                  Hfirst)
        as (r & p & v & a & d & -> & -> & -> & -> & -> & Hv & Ht).
      destruct (release E (PyStr r) (PyStr p) (PyStr v) (PyBool a) (PyBool d) [])
        as [tr res] eqn:Hrun.
      destruct (release_outcome E r p v a d Hv Ht tr res Hrun)
        as (now & existed & lp & now' & _ & Hout).
      assert (Hs : exists rest,
                 release_script E r p v a d now existed lp now' =
                 IsFile (ANACONDA_TOKEN_FILE E)
                 :: Print ": Package-Builder will build model packages for:"
                 :: rest).
      { eexists. unfold release_script, plan_script. cbn [app]. reflexivity. }
      destruct Hs as [rest Hs].
      destruct Hout as [[-> ->] | (pre & ev & post & Hs' & Hf & -> & ->)].
      * exists rest, (Ok tt). split; [now rewrite Hs | discriminate].
      * rewrite Hs in Hs'.
        do 2 (destruct pre as [|? pre];
              [cbn [app] in Hs'; injection Hs' as <-; discriminate Hf
              |cbn [app] in Hs'; injection Hs' as <- Hs']).
        exists (pre ++ [ev]), (Err (Raised ev)).
        split; [reflexivity | discriminate].
  - intro Hstr.
    assert (Hc : exists c,
               (c = RepoNameIsString \/ c = PkgNameIsString
                \/ c = VersionIsString)
               /\ release E repo_name pkg_name version also37 dryrun [] =
                  ([], Err (ValueError (message E version c)))).
    { destruct repo_name as [r| | |];
        try (exists RepoNameIsString; split; [tauto | reflexivity]).
      destruct pkg_name as [p| | |];
        try (exists PkgNameIsString; split; [tauto | reflexivity]).
      destruct version as [v| | |]; [discriminate Hstr | | |];
        (exists VersionIsString; split; [tauto | reflexivity]). }
    split; [exact Hc | split].
    + intros H1 H2.
      destruct repo_name as [r| | |]; try discriminate H1.
      destruct pkg_name as [p| | |]; try discriminate H2.
      destruct version as [v| | |]; [discriminate Hstr | | |]; reflexivity.
    + destruct Hc as (c & Hc & ->). cbn [snd]. intro s.
      destruct Hc as [-> | [-> | ->]]; cbn [message]; intro H;
        injection H as H; cbn in H; congruence.
Qed.


(** C1 (the code departs from the claim).  The version 1.2.3 followed by
    a newline is not three dot-separated integers and nothing else, yet
    it passes the pattern check of line 85, since [$] also matches
    before a final newline: with the token file present the release
    runs, clone command and all. *)
Theorem C1_final_newline_accepted :
  let version := ("1.2.3" ++ newline)%string in
  is_xyz version = false
  /\ Re.re_match version_pattern version = true
  /\ snd (release env_fine (PyStr "Tax-Calculator") (PyStr "taxcalc")
            (PyStr version) (PyBool true) (PyBool false) []) = Ok tt
  /\ In (OsCall (clone_cmd version "Tax-Calculator"))
       (fst (release env_fine (PyStr "Tax-Calculator") (PyStr "taxcalc")
               (PyStr version) (PyBool true) (PyBool false) []))
  /\ existsb side_effect
       (fst (release env_fine (PyStr "Tax-Calculator") (PyStr "taxcalc")
               (PyStr version) (PyBool true) (PyBool false) [])) = true.
Proof.
  cbv zeta. split; [reflexivity|]. split; [reflexivity|].
  split; [vm_compute; reflexivity|].
  split; [vm_compute; tauto | vm_compute; reflexivity].
Qed.

(** ** The theorems at concrete calls *)

Lemma C2_witness :
  filter is_build_cmd
    (os_calls
       (fst (release env_fine (PyStr "Tax-Calculator") (PyStr "taxcalc")
               (PyStr "0.22.2") (PyBool true) (PyBool false) []))) =
  [build_cmd "3.6"; build_cmd "3.7"].
Proof.
  apply (C2_python_versions env_fine "Tax-Calculator" "taxcalc" "0.22.2"
           true false _ _ eq_refl eq_refl (surjective_pairing _)).
  - vm_compute. reflexivity.
  - reflexivity.
Defined.

Lemma C3_witness :
  pkgfile "taxcalc" "0.22.2" "3.7" = Ok "taxcalc-0.22.2-py37_0.tar.bz2"%string.
Proof.
  exact (proj1 (C3_artifact_filename "taxcalc" "0.22.2" "3" "7"
                  eq_refl eq_refl)).
Defined.

Lemma C4_witness :
  snd (release env_fine (PyStr "Tax-Calculator") (PyStr "taxcalc")
         (PyStr "0.22.2") (PyBool true) (PyBool true) []) = Ok tt
  /\ forallb (fun ev => negb (side_effect ev))
       (fst (release env_fine (PyStr "Tax-Calculator") (PyStr "taxcalc")
               (PyStr "0.22.2") (PyBool true) (PyBool true) [])) = true.
Proof.
  destruct (C4_dry_run env_fine "Tax-Calculator" "taxcalc" "0.22.2" true
              eq_refl eq_refl) as (Hrun & Hquiet & _).
  split; [rewrite Hrun; reflexivity | exact Hquiet].
Defined.

Lemma C6_witness :
  filter is_file_revision
    (fst (release env_fine (PyStr "Tax-Calculator") (PyStr "taxcalc")
            (PyStr "0.22.2") (PyBool true) (PyBool false) [])) =
  [FileRevision "conda.recipe/meta.yaml" "version: .*" "version: 0.22.2";
   FileRevision "setup.py" "version = .*"
     ("version = " ++ String "034" ("0.22.2" ++ String "034" ""))%string;
   FileRevision "taxcalc/__init__.py" "__version__ = .*"
     ("__version__ = " ++ String "034" ("0.22.2" ++ String "034" ""))%string].
Proof.
  apply (C6_version_stamping env_fine "Tax-Calculator" "taxcalc" "0.22.2"
           true false _ _ (surjective_pairing _)).
  - vm_compute. reflexivity.
  - reflexivity.
Defined.

Lemma C7_witness :
  os_calls
    (fst (release env_fine (PyStr "Tax-Calculator") (PyStr "taxcalc")
            (PyStr "0.22.2") (PyBool false) (PyBool false) [])) =
  ["git clone --branch 0.22.2 --depth 1 https://github.com/PSLmodels/Tax-Calculator/";
   "conda build --python 3.6 --old-build-string --channel pslmodels --override-channels --no-anaconda-upload --output-folder pkgbld_output conda.recipe";
   "conda convert -p osx-64 -o pkgbld_output pkgbld_output/linux-64/taxcalc-0.22.2-py36_0.tar.bz2";
   "conda convert -p win-32 -o pkgbld_output pkgbld_output/linux-64/taxcalc-0.22.2-py36_0.tar.bz2";
   "conda convert -p win-64 -o pkgbld_output pkgbld_output/linux-64/taxcalc-0.22.2-py36_0.tar.bz2";
   "anaconda -t /home/psl/.pslmodels_anaconda_token upload -u pslmodels --force pkgbld_output/osx-64/taxcalc-0.22.2-py36_0.tar.bz2";
   "anaconda -t /home/psl/.pslmodels_anaconda_token upload -u pslmodels --force pkgbld_output/linux-64/taxcalc-0.22.2-py36_0.tar.bz2";
   "anaconda -t /home/psl/.pslmodels_anaconda_token upload -u pslmodels --force pkgbld_output/win-32/taxcalc-0.22.2-py36_0.tar.bz2";
   "anaconda -t /home/psl/.pslmodels_anaconda_token upload -u pslmodels --force pkgbld_output/win-64/taxcalc-0.22.2-py36_0.tar.bz2";
   "conda build purge"]%string.
Proof.
  destruct (C7_convert_and_upload_per_platform env_fine
              "Tax-Calculator" "taxcalc" "0.22.2" false false _ _
              (surjective_pairing _))
    as (now & existed & lp & Hlp & _ & Hall & _).
  cbn in Hlp. subst lp. rewrite Hall.
  - reflexivity.
  - vm_compute. reflexivity.
  - reflexivity.
Defined.

Lemma C8_witness :
  release env_no_token (PyStr "Tax-Calculator") (PyStr "taxcalc")
    (PyStr "0.22.2") (PyBool true) (PyBool false) [] =
  ([IsFile "/home/psl/.pslmodels_anaconda_token"],
   Err (ValueError
          "Anaconda token file /home/psl/.pslmodels_anaconda_token does not exist")).
Proof.
  apply (C8_precondition_errors env_no_token (PyStr "Tax-Calculator")
           (PyStr "taxcalc") (PyStr "0.22.2") (PyBool true) (PyBool false));
    try reflexivity.
  right; right; right; right; right. reflexivity.
Defined.

(** * Further properties of [release] *)

(** ** Lists and scripts *)

(** A segment free of [P] at the head of a list lies before the first
    element with [P]. *)
Lemma segment_before {A} (P : A -> bool) (l1 l2 pre post : list A) (x : A) :
  forallb (fun y => negb (P y)) l1 = true ->
  P x = true ->
  l1 ++ l2 = pre ++ x :: post ->
  prefix_of l1 pre.
Proof.
  intros H1 Hx. revert pre H1.
  induction l1 as [|a l1 IH]; intros pre H1 Heq.
  - exists pre. reflexivity.
  - cbn [forallb] in H1. apply andb_true_iff in H1. destruct H1 as [Ha H1].
    destruct pre as [|b pre].
    + cbn [app] in Heq. injection Heq as -> _. rewrite Hx in Ha. discriminate.
    + cbn [app] in Heq. injection Heq as <- Heq.
      destruct (IH pre H1 Heq) as [r ->]. exists r. reflexivity.
Qed.

Lemma prefix_of_in {A} (l1 l2 : list A) (x : A) :
  prefix_of l1 l2 -> In x l1 -> In x l2.
Proof. intros [r ->] H. apply in_or_app. now left. Qed.

Lemma prefix_of_forallb {A} (P : A -> bool) (l1 l2 : list A) :
  prefix_of l1 l2 -> forallb P l2 = true -> forallb P l1 = true.
Proof.
  intros [r ->] H. rewrite forallb_app in H. apply andb_true_iff in H. tauto.
Qed.

Lemma returned_app (E : env) (h s1 s2 : list event) :
  returned E h (s1 ++ s2) = returned E h s1 && returned E (h ++ s1) s2.
Proof.
  revert h. induction s1 as [|ev s1 IH]; intro h; cbn [app returned].
  - now rewrite app_nil_r.
  - rewrite IH, <- app_assoc, andb_assoc. reflexivity.
Qed.

(** Running a script: it ends normally when every call returns, and
    otherwise right after the first call that does not. *)
Lemma run_script_returned (E : env) (s h : list event) :
  (returned E h s = true /\ run_script E s h = (h ++ s, Ok tt))
  \/ exists pre ev post,
       s = pre ++ ev :: post
       /\ returned E h pre = true
       /\ fallible ev = true
       /\ returns E (h ++ pre) ev = false
       /\ run_script E s h = (h ++ pre ++ [ev], Err (Raised ev)).
Proof.
  revert h. induction s as [|ev s IH]; intro h.
  - left. split; [reflexivity|]. cbn. unfold ret. now rewrite app_nil_r.
  - cbn [run_script returned]. unfold bind, perform.
    destruct (fallible ev) eqn:F; cbn [andb negb orb].
    + destruct (returns E h ev) eqn:R; cbn [negb andb].
      * destruct (IH (h ++ [ev]))
          as [[Hr Hrun] | (pre & ev' & post & -> & Hr & Hf & Hn & Hrun)].
        -- left. split; [exact Hr|]. rewrite Hrun, <- app_assoc. reflexivity.
        -- right. exists (ev :: pre), ev', post.
           cbn [app returned]. rewrite F, R, Hr. cbn [negb orb andb].
           repeat split; auto.
           ++ rewrite <- Hn. f_equal. now rewrite <- app_assoc.
           ++ rewrite Hrun, <- app_assoc. reflexivity.
      * right. exists [], ev, s. cbn [app returned]. rewrite app_nil_r.
        repeat split; auto.
    + destruct (IH (h ++ [ev]))
        as [[Hr Hrun] | (pre & ev' & post & -> & Hr & Hf & Hn & Hrun)].
      * left. split; [exact Hr|]. rewrite Hrun, <- app_assoc. reflexivity.
      * right. exists (ev :: pre), ev', post.
        cbn [app returned]. rewrite F, Hr. cbn [negb orb andb].
        repeat split; auto.
        -- rewrite <- Hn. f_equal. now rewrite <- app_assoc.
        -- rewrite Hrun, <- app_assoc. reflexivity.
Qed.

Lemma returned_always (E : env) (h s : list event) :
  (forall h' ev, returns E h' ev = true) -> returned E h s = true.
Proof.
  intro H. revert h. induction s as [|ev s IH]; intro h; cbn [returned].
  - reflexivity.
  - rewrite H, IH, orb_true_r. reflexivity.
Qed.

(** The two cases of a call: a precondition is violated, or the
    arguments are strings and booleans that pass every check. *)
Lemma release_cases
    (E : env) (repo_name pkg_name version also37 dryrun : pyval) :
  (exists c,
      first_violated E repo_name pkg_name version also37 dryrun = Some c
      /\ release E repo_name pkg_name version also37 dryrun [] =
         (trace_at E c, Err (ValueError (message E version c))))
  \/ (exists r p v a d,
        repo_name = PyStr r /\ pkg_name = PyStr p /\ version = PyStr v
        /\ also37 = PyBool a /\ dryrun = PyBool d
        /\ Re.re_match version_pattern v = true
        /\ token_file_exists E = true).
Proof.
  destruct (first_violated E repo_name pkg_name version also37 dryrun)
    as [c|] eqn:Hfirst.
  - left. exists c. split; [reflexivity|]. now apply release_first_violated.
  - right. now apply first_violated_none.
Qed.

(** ** How a call ends *)

(** X1.  A call ends in one of three ways.  It returns normally, and
    then every fallible call it made returned.  Or it raises ValueError,
    and then nothing has happened but, at most, the look at the token
    file.  Or it raises the exception of an external call: that call is
    the last event of the trace, it is the first one the environment let
    fail, and nothing runs after it.  Indexing the parts of an
    interpreter version never raises. *)
Theorem X1_how_a_call_ends
    (E : env) (repo_name pkg_name version also37 dryrun : pyval) :
  match release E repo_name pkg_name version also37 dryrun [] with
  | (tr, Ok _) => returned E [] tr = true
  | (tr, Err (ValueError _)) =>
      tr = [] \/ tr = [IsFile (ANACONDA_TOKEN_FILE E)]
  | (tr, Err IndexError) => False
  | (tr, Err (Raised ev)) =>
      exists pre,
        tr = pre ++ [ev]
        /\ returned E [] pre = true
        /\ fallible ev = true
        /\ returns E pre ev = false
  end.
Proof.
  destruct (release_cases E repo_name pkg_name version also37 dryrun)
    as [(c & _ & ->) | (r & p & v & a & d & -> & -> & -> & -> & -> & Hv & Ht)].
  - destruct c; cbn [trace_at]; auto.
  - destruct (release_is_script E r p v a d Hv Ht)
      as (now & existed & lp & now' & _ & ->).
    destruct (run_script_returned E
                (release_script E r p v a d now existed lp now') [])
      as [[Hr ->] | (pre & ev & post & _ & Hr & Hf & Hn & ->)].
    + exact Hr.
    + exists pre. cbn [app] in *. auto.
Qed.

(** X2.  When the preconditions hold and every external call returns, a
    call returns normally and its trace is the complete script: plan,
    workspace, clone, stamps, the whole loop and the cleanup (or, for a
    dry run, the plan and the quitting line).  The procedure has no
    failure of its own. *)
Theorem X2_no_failure_of_its_own
    (E : env) (repo_name pkg_name version : string) (also37 dryrun : bool) :
  (forall h ev, returns E h ev = true) ->
  Re.re_match version_pattern version = true ->
  token_file_exists E = true ->
  exists now existed local_platform now',
    release E (PyStr repo_name) (PyStr pkg_name) (PyStr version)
      (PyBool also37) (PyBool dryrun) [] =
    (IsFile (ANACONDA_TOKEN_FILE E)
     :: plan_script E repo_name pkg_name version (python_versions also37)
     ++ (if dryrun then [Print ": Package-Builder is quitting"]
         else acquire_script E repo_name version now existed
              ++ stamp_script repo_name pkg_name version
              ++ loop_script E pkg_name version local_platform
                   (python_versions also37)
              ++ cleanup_script E now'),
     Ok tt).
Proof.
  intros Hall Hv Ht.
  destruct (release_is_script E repo_name pkg_name version also37 dryrun Hv Ht)
    as (now & existed & lp & now' & _ & Heq).
  exists now, existed, lp, now'. rewrite Heq.
  destruct (run_script_returned E
              (release_script E repo_name pkg_name version also37 dryrun
                 now existed lp now') [])
    as [[_ Hrun] | (pre & ev & post & _ & _ & _ & Hn & _)].
  - exact Hrun.
  - rewrite Hall in Hn. discriminate.
Qed.

(** X3.  A dry run shows what the real run starts with: with the same
    arguments and environment, the trace of the dry run is the look at
    the token file and the plan, followed by the quitting line, and the
    trace of the real run begins with that same look and plan. *)
Theorem X3_dry_run_shows_the_real_plan
    (E : env) (repo_name pkg_name version : string) (also37 : bool) :
  Re.re_match version_pattern version = true ->
  token_file_exists E = true ->
  let plan :=
    IsFile (ANACONDA_TOKEN_FILE E)
    :: plan_script E repo_name pkg_name version (python_versions also37) in
  fst (release E (PyStr repo_name) (PyStr pkg_name) (PyStr version)
         (PyBool also37) (PyBool true) []) =
    plan ++ [Print ": Package-Builder is quitting"]
  /\ prefix_of plan
       (fst (release E (PyStr repo_name) (PyStr pkg_name) (PyStr version)
               (PyBool also37) (PyBool false) [])).
Proof.
  intros Hv Ht plan. split.
  - destruct (release_is_script E repo_name pkg_name version also37 true Hv Ht)
      as (now & existed & lp & now' & _ & ->).
    rewrite (run_script_infallible E _ []) by reflexivity. reflexivity.
  - destruct (release E (PyStr repo_name) (PyStr pkg_name) (PyStr version)
                (PyBool also37) (PyBool false) []) as [tr res] eqn:Hrun.
    cbn [fst].
    destruct (release_outcome E repo_name pkg_name version also37 false
                Hv Ht tr res Hrun)
      as (now & existed & lp & now' & _ & Hout).
    destruct Hout as [[-> _] | (pre & ev & post & Hs & Hf & -> & _)].
    + eexists. unfold release_script, plan. rewrite app_comm_cons. reflexivity.
    + assert (Hp : prefix_of plan pre).
      { apply (segment_before fallible plan
                 (steps_script E repo_name pkg_name version
                    (python_versions also37) now existed lp now')
                 pre post ev); [reflexivity | exact Hf |].
        rewrite <- Hs. reflexivity. }
      destruct Hp as [r ->]. exists (r ++ [ev]). now rewrite app_assoc.
Qed.

(** ** The working directory *)

Section Workspace.

Variable E : env.
Variables repo_name pkg_name version : string.
Variable also37 : bool.

(** [release_steps] as a script, with the answers of the clock and of
    the directory test named. *)
Lemma release_steps_script_answers (h : list event) :
  exists local_platform now',
    release_steps E repo_name pkg_name version (python_versions also37) h =
    run_script E
      (steps_script E repo_name pkg_name version (python_versions also37)
         (answer_str E h Asctime)
         (answer_bool E
            ((h ++ [Asctime])
             ++ [Print (": Package-Builder is starting at "
                          ++ answer_str E h Asctime)%string])
            (IsDir (WORKING_DIR E)))
         local_platform now') h.
Proof.
  do 2 eexists.
  set (existed := answer_bool E _ _).
  unfold release_steps, steps_script, acquire_script, stamp_script,
    cleanup_script, time_asctime, os_path_isdir, print, shutil_rmtree,
    os_mkdir, os_chdir, os_call, file_revision, conda_platform_name.
  rewrite <- !app_assoc. cbn [app].
  apply step_ask_str; [reflexivity|].
  apply step_perform.
  apply step_ask_bool; [reflexivity|].
  apply step_script; [intro; apply cond_perform_script|].
  do 9 apply step_perform.
  apply step_call_str; [reflexivity|].
  apply step_script; [intro; apply loop_is_script|].
  do 4 apply step_perform.
  apply step_ask_str; [reflexivity|].
  apply last_perform.
Qed.

Lemma real_release_script_answers :
  Re.re_match version_pattern version = true ->
  token_file_exists E = true ->
  exists local_platform now',
    release E (PyStr repo_name) (PyStr pkg_name) (PyStr version)
      (PyBool also37) (PyBool false) [] =
    run_script E
      (shown_plan E repo_name pkg_name version also37
       ++ steps_script E repo_name pkg_name version (python_versions also37)
            (start_time E repo_name pkg_name version also37)
            (working_dir_existed E repo_name pkg_name version also37)
            local_platform now') [].
Proof.
  intros Hv Ht.
  destruct (release_steps_script_answers
              (shown_plan E repo_name pkg_name version also37))
    as (lp & now' & Heq).
  exists lp, now'.
  assert (Hrel :
            release E (PyStr repo_name) (PyStr pkg_name) (PyStr version)
              (PyBool also37) (PyBool false) [] =
            (show_plan E repo_name pkg_name version (python_versions also37);;
             release_steps E repo_name pkg_name version
               (python_versions also37))
              [IsFile (ANACONDA_TOKEN_FILE E)]).
  { unfold release, check_str, check_bool, bind at 1 2 3 4 5, ret,
      os_path_isfile.
    rewrite Hv. cbn [negb].
    unfold bind at 1, ask_bool.
    fold (token_file_exists E). rewrite Ht. reflexivity. }
  rewrite Hrel.
  change (run_script E
            (shown_plan E repo_name pkg_name version also37
             ++ steps_script E repo_name pkg_name version
                  (python_versions also37)
                  (start_time E repo_name pkg_name version also37)
                  (working_dir_existed E repo_name pkg_name version also37)
                  lp now') [])
    with (run_script E
            (plan_script E repo_name pkg_name version (python_versions also37)
             ++ steps_script E repo_name pkg_name version
                  (python_versions also37)
                  (start_time E repo_name pkg_name version also37)
                  (working_dir_existed E repo_name pkg_name version also37)
                  lp now') [IsFile (ANACONDA_TOKEN_FILE E)]).
  apply step_script; [intro; apply show_plan_script|].
  exact Heq.
Qed.

End Workspace.

Lemma str_append_inv_head (a b c : string) :
  (a ++ b = a ++ c)%string -> b = c.
Proof.
  induction a as [|x a IH]; cbn [append]; intro H; [exact H|].
  injection H as H. now apply IH.
Qed.

Lemma starts_with_append (a b : string) : starts_with a (a ++ b) = true.
Proof.
  induction a as [|x a IH]; [reflexivity|].
  cbn [append starts_with]. now rewrite Ascii.eqb_refl, IH.
Qed.

(** X4.  A real release that passes its preconditions reads the clock,
    prints the starting line with the clock's answer and tests the
    working directory.  The working directory is made only after that,
    and after the old one was removed when the test said it exists (and
    without any removal when it said it does not).  When the old
    directory cannot be removed the release stops there, before making
    anything. *)
Theorem X4_workspace_reset
    (E : env) (repo_name pkg_name version : string) (also37 : bool)
    (tr : list event) (res : result unit) :
  Re.re_match version_pattern version = true ->
  token_file_exists E = true ->
  release E (PyStr repo_name) (PyStr pkg_name) (PyStr version)
    (PyBool also37) (PyBool false) [] = (tr, res) ->
  let before :=
    shown_plan E repo_name pkg_name version also37
    ++ [Asctime;
        Print (": Package-Builder is starting at "
                 ++ start_time E repo_name pkg_name version also37)%string;
        IsDir (WORKING_DIR E)] in
  let reset :=
    if working_dir_existed E repo_name pkg_name version also37
    then [Rmtree (WORKING_DIR E)] else [] in
  prefix_of before tr
  /\ (In (Mkdir (WORKING_DIR E)) tr ->
      prefix_of (before ++ reset ++ [Mkdir (WORKING_DIR E)]) tr)
  /\ (working_dir_existed E repo_name pkg_name version also37 = true ->
      returns E before (Rmtree (WORKING_DIR E)) = false ->
      tr = before ++ [Rmtree (WORKING_DIR E)]
      /\ res = Err (Raised (Rmtree (WORKING_DIR E)))).
Proof.
  intros Hv Ht Hrun before reset.
  destruct (real_release_script_answers E repo_name pkg_name version also37
              Hv Ht) as (lp & now' & Heq).
  rewrite Heq in Hrun. clear Heq.
  set (after := [Chdir (WORKING_DIR E);
                 Print (": Package-Builder is cloning repository code for "
                          ++ version)%string;
                 OsCall (clone_cmd version repo_name)]
                ++ stamp_script repo_name pkg_name version
                ++ loop_script E pkg_name version lp (python_versions also37)
                ++ cleanup_script E now').
  assert (Hshape :
            shown_plan E repo_name pkg_name version also37
            ++ steps_script E repo_name pkg_name version
                 (python_versions also37)
                 (start_time E repo_name pkg_name version also37)
                 (working_dir_existed E repo_name pkg_name version also37)
                 lp now' =
            before ++ reset ++ Mkdir (WORKING_DIR E) :: after).
  { unfold steps_script, acquire_script, before, reset, after.
    norm_app. reflexivity. }
  rewrite Hshape in Hrun. clear Hshape.
  assert (Hquiet : forallb (fun ev => negb (fallible ev)) before = true)
    by reflexivity.
  assert (Hnomk : forallb (fun ev => negb (is_mkdir ev)) (before ++ reset)
                  = true).
  { rewrite forallb_app. unfold reset.
    destruct (working_dir_existed E repo_name pkg_name version also37);
      reflexivity. }
  clearbody before after.
  split; [|split].
  - destruct (run_script_spec E (before ++ reset ++ Mkdir (WORKING_DIR E) :: after) [])
      as [R | (pre & ev & post & Hs & Hf & R)];
      rewrite R in Hrun; cbn [app] in Hrun; injection Hrun as <- _.
    + eexists. reflexivity.
    + destruct (segment_before fallible before _ pre post ev Hquiet Hf Hs)
        as [r ->].
      exists (r ++ [ev]). now rewrite app_assoc.
  - intro Hin.
    assert (Hpre : prefix_of tr
                     ((before ++ reset) ++ Mkdir (WORKING_DIR E) :: after)).
    { rewrite <- app_assoc.
      destruct (run_script_spec E
                  (before ++ reset ++ Mkdir (WORKING_DIR E) :: after) [])
        as [R | (pre & ev & post & Hs & Hf & R)];
        rewrite R in Hrun; cbn [app] in Hrun; injection Hrun as <- _.
      - apply prefix_of_refl.
      - rewrite Hs. apply prefix_of_cut. }
    rewrite app_assoc.
    exact (prefix_of_reaches is_mkdir (Mkdir (WORKING_DIR E))
             (before ++ reset) after tr eq_refl Hnomk Hpre Hin).
  - intros Hex Hret. unfold reset in Hrun. rewrite Hex in Hrun.
    rewrite run_script_app in Hrun. unfold bind in Hrun.
    rewrite (run_script_infallible E before [] Hquiet) in Hrun.
    cbn [app run_script] in Hrun. unfold bind, perform in Hrun.
    cbn [fallible andb] in Hrun. rewrite Hret in Hrun. cbn [negb] in Hrun.
    injection Hrun as <- <-. split; reflexivity.
Qed.

(** X5.  The only directory a call ever removes is the working
    directory, whose path extends the home directory's and is neither the
    home directory nor the token file. *)
Theorem X5_only_the_working_directory_is_removed
    (E : env) (repo_name pkg_name version also37 dryrun : pyval) :
  (forall path,
      In (Rmtree path)
        (fst (release E repo_name pkg_name version also37 dryrun [])) ->
      path = WORKING_DIR E)
  /\ WORKING_DIR E <> HOME_DIR E
  /\ WORKING_DIR E <> ANACONDA_TOKEN_FILE E
  /\ starts_with (HOME_DIR E) (WORKING_DIR E) = true.
Proof.
  split.
  - intros path Hin.
    destruct (release_cases E repo_name pkg_name version also37 dryrun)
      as [(c & _ & Hrel)
         | (r & p & v & a & d & -> & -> & -> & -> & -> & Hv & Ht)].
    + rewrite Hrel in Hin. cbn [fst] in Hin.
      destruct c; cbn in Hin; intuition discriminate.
    + destruct (release E (PyStr r) (PyStr p) (PyStr v) (PyBool a) (PyBool d) [])
        as [tr res] eqn:Hrun.
      cbn [fst] in Hin.
      destruct (release_follows_script E r p v a d tr res Hrun)
        as (now & existed & lp & now' & _ & Hpre & _).
      apply (prefix_of_in _ _ _ Hpre) in Hin.
      assert (F : forallb
                    (fun ev =>
                       match ev with
                       | Rmtree q => (q =? WORKING_DIR E)%string
                       | _ => true
                       end)
                    (release_script E r p v a d now existed lp now') = true).
      { unfold release_script. cbn [forallb]. rewrite forallb_app.
        replace (forallb _ (plan_script E r p v (python_versions a)))
          with true by reflexivity.
        destruct d; [reflexivity|].
        unfold steps_script. rewrite !forallb_app.
        rewrite forallb_loop_script by reflexivity.
        unfold acquire_script, stamp_script, cleanup_script.
        destruct existed; cbn; rewrite ?String.eqb_refl; reflexivity. }
      rewrite forallb_forall in F. specialize (F _ Hin).
      now apply String.eqb_eq in F.
  - unfold WORKING_DIR, ANACONDA_TOKEN_FILE, path_join, path_join2.
    cbn [fold_left startswith_sep]. cbn [Ascii.eqb Bool.eqb].
    change (startswith_sep ("." ++ ANACONDA_USER ++ "_anaconda_token")%string)
      with false.
    cbv iota.
    split; [|split].
    + intro H.
      destruct ((HOME_DIR E =? "")%string || endswith_sep (HOME_DIR E)).
      * rewrite <- (str_append_nil (HOME_DIR E)) in H at 2.
        apply str_append_inv_head in H. discriminate.
      * rewrite <- (str_append_nil (HOME_DIR E)) in H at 2.
        apply str_append_inv_head in H. discriminate.
    + intro H.
      destruct ((HOME_DIR E =? "")%string || endswith_sep (HOME_DIR E));
        apply str_append_inv_head in H; discriminate.
    + destruct ((HOME_DIR E =? "")%string || endswith_sep (HOME_DIR E));
        apply starts_with_append.
Qed.

(** X6.  Every build, convert and upload comes after the clone and the
    three version stamps: at the point where such a command starts, the
    trace already holds the plan, the preparation of the working
    directory with the clone, and the stamping of meta.yaml, setup.py
    and the package's __init__.py. *)
Theorem X6_stamps_before_the_loop
    (E : env) (repo_name pkg_name version : string) (also37 dryrun : bool)
    (res : result unit) (pre post : list event) (ev : event) :
  release E (PyStr repo_name) (PyStr pkg_name) (PyStr version)
    (PyBool also37) (PyBool dryrun) [] = (pre ++ ev :: post, res) ->
  is_loop_step ev = true ->
  (exists now existed,
      prefix_of
        (IsFile (ANACONDA_TOKEN_FILE E)
         :: plan_script E repo_name pkg_name version (python_versions also37)
         ++ acquire_script E repo_name version now existed
         ++ stamp_script repo_name pkg_name version)
        pre)
  /\ In (OsCall (clone_cmd version repo_name)) pre
  /\ In (FileRevision "conda.recipe/meta.yaml" "version: .*"
           ("version: " ++ version)%string) pre
  /\ In (FileRevision "setup.py" "version = .*"
           ("version = " ++ dquote ++ version ++ dquote)%string) pre
  /\ In (FileRevision (path_join pkg_name ["__init__.py"]) "__version__ = .*"
           ("__version__ = " ++ dquote ++ version ++ dquote)%string) pre.
Proof.
  intros Hrun Hev.
  destruct (release_follows_script E repo_name pkg_name version also37 dryrun
              _ res Hrun)
    as (now & existed & lp & now' & _ & [r Hr] & _).
  rewrite <- app_assoc in Hr. cbn [app] in Hr.
  assert (Hpre : prefix_of
                   (IsFile (ANACONDA_TOKEN_FILE E)
                    :: plan_script E repo_name pkg_name version
                         (python_versions also37)
                    ++ acquire_script E repo_name version now existed
                    ++ stamp_script repo_name pkg_name version)
                   pre).
  { destruct dryrun.
    - exfalso.
      assert (F : forallb (fun e => negb (is_loop_step e))
                    (release_script E repo_name pkg_name version also37 true
                       now existed lp now') = true) by reflexivity.
      rewrite Hr, forallb_app in F. apply andb_true_iff in F.
      destruct F as [_ F]. cbn [forallb] in F. rewrite Hev in F.
      discriminate F.
    - refine (segment_before is_loop_step _
                (loop_script E pkg_name version lp (python_versions also37)
                 ++ cleanup_script E now')
                pre (post ++ r) ev _ Hev _).
      + cbn [forallb]. rewrite !forallb_app.
        destruct existed; reflexivity.
      + rewrite <- Hr. unfold release_script, steps_script.
        norm_app. reflexivity. }
  split; [exists now, existed; exact Hpre|].
  repeat split; apply (prefix_of_in _ _ _ Hpre); right;
    apply in_or_app; right; apply in_or_app.
  - left. unfold acquire_script. apply in_or_app. right.
    apply in_or_app. right. simpl. tauto.
  - right. simpl. tauto.
  - right. simpl. tauto.
  - right. simpl. tauto.
Qed.

(** ** The clone step and the cleanup *)

Lemma run_script_when_returned (E : env) (s h : list event) :
  returned E h s = true -> run_script E s h = (h ++ s, Ok tt).
Proof.
  intro H.
  destruct (run_script_returned E s h)
    as [[_ R] | (pre & ev & post & -> & _ & Hf & Hn & _)]; [exact R|].
  rewrite returned_app in H. cbn [returned] in H.
  rewrite Hf, Hn in H. cbn [negb orb andb] in H.
  rewrite andb_false_r in H. discriminate.
Qed.

Lemma returned_prefix (E : env) (h l1 l2 : list event) :
  prefix_of l1 l2 -> returned E h l2 = true -> returned E h l1 = true.
Proof.
  intros [r ->] H. rewrite returned_app in H.
  apply andb_true_iff in H. tauto.
Qed.

Lemma prefix_of_snoc {A} (l p : list A) (x y : A) :
  prefix_of (l ++ [x]) (p ++ [y]) -> prefix_of l p.
Proof.
  intros [r Hr].
  destruct r as [|z r'] using rev_ind.
  - rewrite app_nil_r in Hr. apply app_inj_tail in Hr.
    destruct Hr as [-> _]. apply prefix_of_refl.
  - rewrite !app_assoc in Hr. apply app_inj_tail in Hr.
    destruct Hr as [-> _]. exists ([x] ++ r'). now rewrite app_assoc.
Qed.

(** C5.  If the clone step fails, that is, if the calls before it return
    and the environment lets the clone command fail, then the release
    ends with the exception of the clone command and its trace stops
    there: after the plan and the preparation of the working directory
    the clone is the last event, no stamping, build, convert, upload or
    purge step runs, and the working directory made for the run is not
    removed.  And when the purge command of the cleanup runs at all, the
    whole build/convert/upload loop has run before it and every call of
    it has returned; a removal of a directory after the working
    directory was made comes after the purge. *)
Theorem C5_clone_failure_and_cleanup
    (E : env) (repo_name pkg_name version : string) (also37 dryrun : bool)
    (tr : list event) (res : result unit) :
  release E (PyStr repo_name) (PyStr pkg_name) (PyStr version)
    (PyBool also37) (PyBool dryrun) [] = (tr, res) ->
  (Re.re_match version_pattern version = true ->
   token_file_exists E = true ->
   dryrun = false ->
   let before :=
     shown_plan E repo_name pkg_name version also37
     ++ [Asctime;
         Print (": Package-Builder is starting at "
                  ++ start_time E repo_name pkg_name version also37)%string;
         IsDir (WORKING_DIR E)]
     ++ (if working_dir_existed E repo_name pkg_name version also37
         then [Rmtree (WORKING_DIR E)] else [])
     ++ [Mkdir (WORKING_DIR E);
         Chdir (WORKING_DIR E);
         Print (": Package-Builder is cloning repository code for "
                  ++ version)%string] in
   let clone :=
     OsCall ("git clone --branch " ++ version
               ++ " --depth 1 https://github.com/PSLmodels/" ++ repo_name
               ++ "/")%string in
   returned E [] before = true ->
   returns E before clone = false ->
   tr = before ++ [clone]
   /\ res = Err (Raised clone)
   /\ os_calls tr =
      [("git clone --branch " ++ version
          ++ " --depth 1 https://github.com/PSLmodels/" ++ repo_name
          ++ "/")%string]
   /\ filter is_file_revision tr = []
   /\ forallb (fun ev => negb (after_clone_step ev)) tr = true)
  /\ (res = Err (Raised (OsCall (clone_cmd version repo_name))) ->
      exists now existed,
        tr = IsFile (ANACONDA_TOKEN_FILE E)
             :: plan_script E repo_name pkg_name version
                  (python_versions also37)
             ++ acquire_script E repo_name version now existed
        /\ os_calls tr = [clone_cmd version repo_name]
        /\ forallb (fun ev => negb (after_clone_step ev)) tr = true)
  /\ (In (OsCall "conda build purge") tr ->
      exists now existed local_platform,
        let through_loop :=
          IsFile (ANACONDA_TOKEN_FILE E)
          :: plan_script E repo_name pkg_name version (python_versions also37)
          ++ acquire_script E repo_name version now existed
          ++ stamp_script repo_name pkg_name version
          ++ loop_script E pkg_name version local_platform
               (python_versions also37)
          ++ [Print ": Package-Builder is cleaning-up"] in
        prefix_of (through_loop ++ [OsCall "conda build purge"]) tr
        /\ returned E [] through_loop = true)
  /\ (forall pre post path,
        tr = pre ++ Rmtree path :: post ->
        In (Mkdir (WORKING_DIR E)) pre ->
        In (OsCall "conda build purge") pre).
Proof.
  intro Hrun.
  destruct (clone_and_cleanup_traces E repo_name pkg_name version also37
              dryrun tr res Hrun) as (Hexn & Hpurge & Hremoval).
  split; [|split; [|split]].
  - (* the environment lets the clone fail *)
    intros Hv Ht -> before clone Hret Hfail.
    destruct (real_release_script_answers E repo_name pkg_name version also37
                Hv Ht) as (lp & now' & Heq).
    rewrite Heq in Hrun. clear Heq.
    assert (Hshape :
              shown_plan E repo_name pkg_name version also37
              ++ steps_script E repo_name pkg_name version
                   (python_versions also37)
                   (start_time E repo_name pkg_name version also37)
                   (working_dir_existed E repo_name pkg_name version also37)
                   lp now' =
              before
              ++ clone
                 :: (stamp_script repo_name pkg_name version
                     ++ loop_script E pkg_name version lp
                          (python_versions also37)
                     ++ cleanup_script E now')).
    { unfold steps_script, acquire_script, before, clone.
      norm_app. reflexivity. }
    rewrite Hshape in Hrun. clear Hshape.
    rewrite run_script_app in Hrun. unfold bind in Hrun.
    rewrite (run_script_when_returned E before [] Hret) in Hrun.
    cbn [app run_script] in Hrun. unfold bind, perform in Hrun.
    change (fallible clone) with true in Hrun.
    rewrite Hfail in Hrun. cbn [negb andb] in Hrun.
    injection Hrun as <- <-.
    split; [reflexivity|]. split; [reflexivity|].
    unfold before, clone, shown_plan.
    destruct (working_dir_existed E repo_name pkg_name version also37);
      repeat split; reflexivity.
  - (* the call ends with the exception of the clone *)
    intro Hres. destruct (Hexn Hres) as (now & existed & Htr & _ & Hcalls & Hno).
    exists now, existed. auto.
  - (* the purge runs *)
    intro Hin. destruct (Hpurge Hin) as (now & existed & lp & Hpre).
    exists now, existed, lp. cbv zeta.
    assert (Hpre' :
              prefix_of
                ((IsFile (ANACONDA_TOKEN_FILE E)
                  :: plan_script E repo_name pkg_name version
                       (python_versions also37)
                  ++ acquire_script E repo_name version now existed
                  ++ stamp_script repo_name pkg_name version
                  ++ loop_script E pkg_name version lp (python_versions also37)
                  ++ [Print ": Package-Builder is cleaning-up"])
                 ++ [OsCall "conda build purge"]) tr).
    { destruct Hpre as [r Hr]. exists r. rewrite Hr.
      norm_app. reflexivity. }
    split; [exact Hpre'|].
    destruct (release_cases E (PyStr repo_name) (PyStr pkg_name)
                (PyStr version) (PyBool also37) (PyBool dryrun))
      as [(c & _ & Hrel)
         | (r & p & v & a & d & [= <-] & [= <-] & [= <-] & [= <-] & [= <-]
            & Hv & Ht)].
    { rewrite Hrel in Hrun. injection Hrun as <- _.
      exfalso. destruct c; cbn in Hin; intuition discriminate. }
    destruct (release_is_script E repo_name pkg_name version also37 dryrun
                Hv Ht) as (now0 & existed0 & lp0 & now0' & _ & Heq).
    rewrite Heq in Hrun. clear Heq.
    destruct (run_script_returned E
                (release_script E repo_name pkg_name version also37 dryrun
                   now0 existed0 lp0 now0') [])
      as [[Hr R] | (pre & ev & post & _ & Hr & _ & _ & R)];
      rewrite R in Hrun; cbn [app] in Hrun; injection Hrun as <- _.
    + apply (returned_prefix E [] _ _ Hpre') in Hr.
      rewrite returned_app in Hr. apply andb_true_iff in Hr. tauto.
    + apply prefix_of_snoc in Hpre'.
      exact (returned_prefix E [] _ _ Hpre' Hr).
  - exact Hremoval.
Qed.

Lemma C5_witness :
  release env_clone_fails (PyStr "Tax-Calculator") (PyStr "taxcalc")
    (PyStr "0.22.2") (PyBool true) (PyBool false) [] =
  ([IsFile "/home/psl/.pslmodels_anaconda_token";
    Print ": Package-Builder will build model packages for:";
    Print ":   repository_name = Tax-Calculator";
    Print ":   package_name = taxcalc";
    Print ":   model_version = 0.22.2";
    Print ":   python_versions = ['3.6', '3.7']";
    Print ": Package-Builder will upload model packages to:";
    Print ":   Anaconda channel = pslmodels";
    Print ":   using token in file = /home/psl/.pslmodels_anaconda_token";
    Asctime;
    Print ": Package-Builder is starting at Tue Oct 23 09:00:00 2018";
    IsDir "/home/psl/temporary_pkgbld_working_dir";
    Mkdir "/home/psl/temporary_pkgbld_working_dir";
    Chdir "/home/psl/temporary_pkgbld_working_dir";
    Print ": Package-Builder is cloning repository code for 0.22.2";
    OsCall "git clone --branch 0.22.2 --depth 1 https://github.com/PSLmodels/Tax-Calculator/"],
   Err (Raised
          (OsCall "git clone --branch 0.22.2 --depth 1 https://github.com/PSLmodels/Tax-Calculator/"))).
Proof.
  destruct (C5_clone_failure_and_cleanup env_clone_fails
              "Tax-Calculator" "taxcalc" "0.22.2" true false _ _
              (surjective_pairing _)) as [Hclone _].
  destruct (Hclone eq_refl eq_refl eq_refl eq_refl eq_refl)
    as (Htr & Hres & _).
  rewrite (surjective_pairing (release _ _ _ _ _ _ _)), Htr, Hres.
  reflexivity.
Defined.

(** ** Uploads come after the build for the same interpreter *)

Lemma str_rev_append (a b : string) :
  str_rev (a ++ b) = (str_rev b ++ str_rev a)%string.
Proof.
  induction a as [|x a IH]; cbn [append str_rev].
  - now rewrite str_append_nil.
  - now rewrite IH, str_append_assoc.
Qed.

Lemma ends_with_own_suffix (a suffix : string) :
  ends_with suffix (a ++ suffix) = true.
Proof. unfold ends_with. rewrite str_rev_append. apply starts_with_append. Qed.

(** The artifact name ends with the suffix of its interpreter. *)
Lemma artifact_name_suffix (pkg_name version pyver : string) :
  artifact_name pkg_name version pyver =
  ((pkg_name ++ "-" ++ version) ++ artifact_suffix pyver)%string.
Proof.
  unfold artifact_name, artifact_suffix.
  now rewrite !str_append_assoc.
Qed.

(** A joined path ends with its last component. *)
Lemma path_join2_last (path b : string) :
  exists a, path_join2 path b = (a ++ b)%string.
Proof.
  unfold path_join2. destruct (startswith_sep b).
  - exists ""%string. reflexivity.
  - destruct ((path =? "")%string || endswith_sep path).
    + exists path. reflexivity.
    + exists (path ++ "/")%string. now rewrite str_append_assoc.
Qed.

Lemma upload_cmd_suffix (E : env) (platform pkg_name version pyver : string) :
  exists a,
    upload_cmd E
      (path_join BUILDS_DIR [platform; artifact_name pkg_name version pyver]) =
    (a ++ artifact_suffix pyver)%string.
Proof.
  unfold path_join. cbn [fold_left].
  destruct (path_join2_last (path_join2 BUILDS_DIR platform)
              (artifact_name pkg_name version pyver)) as [a ->].
  rewrite artifact_name_suffix. unfold upload_cmd.
  eexists. rewrite <- !str_append_assoc. reflexivity.
Qed.

Lemma upload_is_upload_for (E : env) (platform pkg_name version pyver : string) :
  is_upload_for pyver
    (OsCall
       (upload_cmd E
          (path_join BUILDS_DIR [platform; artifact_name pkg_name version pyver])))
  = true.
Proof.
  unfold is_upload_for. apply andb_true_iff. split; [reflexivity|].
  destruct (upload_cmd_suffix E platform pkg_name version pyver) as [a ->].
  apply ends_with_own_suffix.
Qed.

(** The uploads of the round for 3.6 are not uploads for 3.7. *)
Lemma round_36_has_no_upload_for_37
    (E : env) (pkg_name version local_platform : string) :
  forallb (fun ev => negb (is_upload_for "3.7" ev))
    (iteration_script E pkg_name version local_platform "3.6") = true.
Proof.
  unfold iteration_script, converts, uploads.
  rewrite !forallb_app. cbn [forallb].
  rewrite !forallb_map_all; [reflexivity | | intro; reflexivity].
  intro platform. unfold is_upload_for.
  destruct (upload_cmd_suffix E platform pkg_name version "3.6") as [a ->].
  unfold ends_with. rewrite str_rev_append.
  rewrite andb_comm. reflexivity.
Qed.

Lemma no_upload_before_the_loop
    (E : env) (repo_name pkg_name version pyver now : string)
    (existed : bool) (pyvers : list string) :
  forallb (fun ev => negb (is_upload_for pyver ev))
    (IsFile (ANACONDA_TOKEN_FILE E)
     :: plan_script E repo_name pkg_name version pyvers
     ++ acquire_script E repo_name version now existed
     ++ stamp_script repo_name pkg_name version) = true.
Proof.
  cbn [forallb]. rewrite !forallb_app. destruct existed; reflexivity.
Qed.

(** X7.  Nothing is uploaded for an interpreter version before the
    build for that version has run: in every trace, an upload of the
    artifact of a version comes after the build command for that
    version. *)
Theorem X7_upload_after_its_build
    (E : env) (repo_name pkg_name version : string) (also37 dryrun : bool)
    (res : result unit) (pre post : list event) (platform pyver : string) :
  release E (PyStr repo_name) (PyStr pkg_name) (PyStr version)
    (PyBool also37) (PyBool dryrun) [] =
  (pre
   ++ OsCall
        (upload_cmd E
           (path_join BUILDS_DIR
              [platform; artifact_name pkg_name version pyver]))
   :: post,
   res) ->
  In pyver (python_versions also37) ->
  In (OsCall (build_cmd pyver)) pre.
Proof.
  intros Hrun Hin.
  destruct (release_follows_script E repo_name pkg_name version also37 dryrun
              _ res Hrun)
    as (now & existed & lp & now' & _ & [r Hr] & _).
  rewrite <- app_assoc in Hr. cbn [app] in Hr.
  pose proof (upload_is_upload_for E platform pkg_name version pyver) as Hu.
  set (u := OsCall
              (upload_cmd E
                 (path_join BUILDS_DIR
                    [platform; artifact_name pkg_name version pyver]))) in *.
  destruct dryrun.
  { exfalso.
    assert (F : forallb (fun e => negb (is_loop_step e))
                  (release_script E repo_name pkg_name version also37 true
                     now existed lp now') = true) by reflexivity.
    rewrite Hr, forallb_app in F. apply andb_true_iff in F.
    destruct F as [_ F]. discriminate F. }
  set (head := IsFile (ANACONDA_TOKEN_FILE E)
               :: plan_script E repo_name pkg_name version
                    (python_versions also37)
               ++ acquire_script E repo_name version now existed
               ++ stamp_script repo_name pkg_name version).
  assert (Hhead : forallb (fun ev => negb (is_upload_for pyver ev)) head = true)
    by apply no_upload_before_the_loop.
  assert (Hscript :
            release_script E repo_name pkg_name version also37 false
              now existed lp now' =
            head ++ loop_script E pkg_name version lp (python_versions also37)
                 ++ cleanup_script E now').
  { unfold release_script, steps_script, head. norm_app. reflexivity. }
  rewrite Hscript in Hr. clear Hscript. clearbody head.
  assert (H36 : pyver = "3.6"%string ->
                In (OsCall (build_cmd pyver)) pre).
  { intros ->.
    assert (Hloop : exists more,
               loop_script E pkg_name version lp (python_versions also37) =
               iteration_script E pkg_name version lp "3.6" ++ more).
    { destruct also37; eexists; reflexivity. }
    destruct Hloop as [more Hloop]. rewrite Hloop in Hr.
    rewrite <- (firstn_skipn 2 (iteration_script E pkg_name version lp "3.6"))
      in Hr.
    rewrite <- !app_assoc in Hr. rewrite (app_assoc head) in Hr.
    apply (segment_before (is_upload_for "3.6")) in Hr;
      [ | rewrite forallb_app, Hhead; reflexivity | exact Hu].
    apply (prefix_of_in _ _ _ Hr). apply in_or_app. right.
    right. left. reflexivity. }
  destruct also37; cbn [python_versions BASE_PYTHON_VERSIONS app In] in Hin.
  - destruct Hin as [<- | [<- | []]]; [now apply H36|].
    clear H36.
    change (loop_script E pkg_name version lp (python_versions true))
      with (iteration_script E pkg_name version lp "3.6"
            ++ iteration_script E pkg_name version lp "3.7" ++ [])
      in Hr.
    rewrite <- (firstn_skipn 2 (iteration_script E pkg_name version lp "3.7"))
      in Hr.
    rewrite <- !app_assoc in Hr.
    rewrite (app_assoc (iteration_script E pkg_name version lp "3.6")) in Hr.
    rewrite (app_assoc head) in Hr.
    apply (segment_before (is_upload_for "3.7")) in Hr;
      [ | | exact Hu].
    + apply (prefix_of_in _ _ _ Hr). apply in_or_app. right.
      apply in_or_app. right. right. left. reflexivity.
    + rewrite !forallb_app, Hhead, round_36_has_no_upload_for_37.
      reflexivity.
  - destruct Hin as [<- | []]. now apply H36.
Qed.

(** ** The version check, the artifact name, the number of commands *)

Lemma str_rev_involutive (s : string) : str_rev (str_rev s) = s.
Proof.
  induction s as [|c s IH]; [reflexivity|].
  cbn [str_rev]. rewrite str_rev_append, IH. reflexivity.
Qed.

Lemma str_append_inv_tail (a b c : string) :
  (a ++ c = b ++ c)%string -> a = b.
Proof.
  intro H. apply (f_equal str_rev) in H. rewrite !str_rev_append in H.
  apply str_append_inv_head in H. apply (f_equal str_rev) in H.
  now rewrite !str_rev_involutive in H.
Qed.

(** X8.  For arguments of any type: a call raises the version-pattern
    error for the string [s], before anything has happened, exactly when
    the two names are strings, the version is the string [s], the two
    flags are booleans, and [s] is not three non-empty runs of the
    digits 0-9 separated by dots and followed by nothing or by one
    newline. *)
Theorem X8_version_check
    (E : env) (repo_name pkg_name version also37 dryrun : pyval)
    (s : string) :
  release E repo_name pkg_name version also37 dryrun [] =
  ([], Err (ValueError
              ("version=" ++ s
                 ++ " does not have X.Y.Z semantic-versioning pattern")%string))
  <->
  is_str repo_name = true /\ is_str pkg_name = true
  /\ version = PyStr s
  /\ is_bool also37 = true /\ is_bool dryrun = true
  /\ ~ (exists x y z tail,
          s = (x ++ "." ++ y ++ "." ++ z ++ tail)%string
          /\ digits x /\ digits y /\ digits z
          /\ (tail = ""%string \/ tail = newline)).
Proof.
  rewrite <- version_pattern_matches. split.
  - intro Hrel.
    destruct repo_name as [r| | |];
      try (exfalso; injection Hrel as Hrel; cbn in Hrel; congruence).
    destruct pkg_name as [p| | |];
      try (exfalso; injection Hrel as Hrel; cbn in Hrel; congruence).
    destruct version as [v| | |];
      try (exfalso; injection Hrel as Hrel; cbn in Hrel; congruence).
    destruct also37 as [|a| |];
      try (exfalso; injection Hrel as Hrel; cbn in Hrel; congruence).
    destruct dryrun as [|d| |];
      try (exfalso; injection Hrel as Hrel; cbn in Hrel; congruence).
    destruct (Re.re_match version_pattern v) eqn:Hv.
    + exfalso. destruct (token_file_exists E) eqn:Ht.
      * destruct (release_is_script E r p v a d Hv Ht)
          as (now & existed & lp & now' & _ & Heq).
        rewrite Heq in Hrel.
        destruct (run_script_spec E
                    (release_script E r p v a d now existed lp now') [])
          as [R | (pre & ev & post & _ & _ & R)];
          rewrite R in Hrel; cbn [app] in Hrel; injection Hrel as Hrel _.
        -- discriminate Hrel.
        -- destruct pre; discriminate Hrel.
      * assert (F : first_violated E (PyStr r) (PyStr p) (PyStr v)
                      (PyBool a) (PyBool d) = Some TokenFileExists).
        { unfold first_violated, check_order.
          cbn [find violated is_str is_bool negb]. rewrite Hv, Ht.
          reflexivity. }
        rewrite (release_first_violated E _ _ _ _ _ _ F) in Hrel.
        discriminate Hrel.
    + assert (Hmsg :
                release E (PyStr r) (PyStr p) (PyStr v) (PyBool a) (PyBool d) [] =
                ([], Err (ValueError
                            ("version="
                               ++ (v ++ " does not have X.Y.Z semantic-versioning pattern"))%string))).
      { unfold release, check_str, check_bool, bind at 1 2 3 4 5, ret.
        rewrite Hv. reflexivity. }
      rewrite Hmsg in Hrel. injection Hrel as Hrel.
      apply str_append_inv_tail in Hrel. subst v.
      repeat split; try reflexivity. rewrite Hv. discriminate.
  - intros (Hr & Hp & -> & Ha & Hd & Hv).
    destruct repo_name as [r| | |]; try discriminate Hr.
    destruct pkg_name as [p| | |]; try discriminate Hp.
    destruct also37 as [|a| |]; try discriminate Ha.
    destruct dryrun as [|d| |]; try discriminate Hd.
    destruct (Re.re_match version_pattern s) eqn:Hm;
      [contradiction Hv; reflexivity|].
    unfold release, check_str, check_bool, bind at 1 2 3 4 5, ret.
    rewrite Hm. reflexivity.
Qed.

(** X9.  The artifact name uses the first two dot-separated parts of the
    interpreter version and nothing else: a third part is dropped, and a
    version without a dot has no second part, so the derivation raises
    IndexError. *)
Theorem X9_artifact_name_parts
    (pkg_name version major minor more : string) :
  has_char "." major = false ->
  has_char "." minor = false ->
  pkgfile pkg_name version major = Err IndexError
  /\ pkgfile pkg_name version (major ++ "." ++ minor ++ "." ++ more)%string =
     Ok (pkg_name ++ "-" ++ version ++ "-py" ++ major ++ minor
           ++ "_0.tar.bz2")%string.
Proof.
  intros Hmajor Hminor. unfold pkgfile, pystr_of. split.
  - rewrite (split_on_absent "." major Hmajor). reflexivity.
  - cbn [append].
    rewrite (split_on_first "." major _ Hmajor).
    rewrite (split_on_first "." minor _ Hminor).
    cbn [nth_error]. rewrite str_append_assoc. reflexivity.
Qed.

Lemma filter_all {A} (f : A -> bool) (l : list A) :
  forallb f l = true -> filter f l = l.
Proof.
  induction l as [|x l IH]; cbn [forallb filter]; [reflexivity|].
  intro H. apply andb_true_iff in H. destruct H as [Hx Hl].
  now rewrite Hx, IH.
Qed.

(** The platforms converted to: all but the local one. *)
Lemma converted_platforms (local_platform : string) :
  length (filter (fun platform => negb (platform =? local_platform)%string)
            OS_PLATFORMS) =
  if is_configured local_platform then 3 else 4.
Proof.
  unfold is_configured, OS_PLATFORMS. cbn [filter existsb].
  rewrite !(String.eqb_sym local_platform).
  destruct (String.eqb_spec "osx-64" local_platform) as [<- | ?];
    [reflexivity|].
  destruct (String.eqb_spec "linux-64" local_platform) as [<- | ?];
    [reflexivity|].
  destruct (String.eqb_spec "win-32" local_platform) as [<- | ?];
    [reflexivity|].
  destruct (String.eqb_spec "win-64" local_platform) as [<- | ?];
    reflexivity.
Qed.

Section Counts.

Variable E : env.
Variables repo_name pkg_name version local_platform : string.

Lemma iteration_cmds_counts (pyver : string) :
  let cmds := iteration_cmds E pkg_name version local_platform pyver in
  length (filter is_build_cmd cmds) = 1
  /\ length (filter is_convert_cmd cmds) =
     (if is_configured local_platform then 3 else 4)
  /\ length (filter is_upload_cmd cmds) = 4
  /\ length cmds = (if is_configured local_platform then 8 else 9).
Proof.
  cbv zeta. unfold iteration_cmds. cbn [filter length].
  replace (is_build_cmd (build_cmd pyver)) with true by reflexivity.
  replace (is_convert_cmd (build_cmd pyver)) with false by reflexivity.
  replace (is_upload_cmd (build_cmd pyver)) with false by reflexivity.
  rewrite !filter_app. cbn [length].
  rewrite !(filter_none is_build_cmd)
    by (apply forallb_map_all; reflexivity).
  rewrite (filter_all is_convert_cmd)
    by (apply forallb_map_all; reflexivity).
  rewrite (filter_none is_convert_cmd)
    by (apply forallb_map_all; reflexivity).
  rewrite (filter_none is_upload_cmd)
    by (apply forallb_map_all; reflexivity).
  rewrite (filter_all is_upload_cmd)
    by (apply forallb_map_all; reflexivity).
  rewrite !length_app, !length_map, converted_platforms.
  cbn [app length OS_PLATFORMS].
  destruct (is_configured local_platform); repeat split; reflexivity.
Qed.

Lemma release_cmds_counts (pyvers : list string) :
  let cmds := release_cmds E repo_name pkg_name version pyvers local_platform in
  let n := length pyvers in
  length (filter is_build_cmd cmds) = n
  /\ length (filter is_convert_cmd cmds) =
     n * (if is_configured local_platform then 3 else 4)
  /\ length (filter is_upload_cmd cmds) = n * 4
  /\ length cmds = 2 + n * (if is_configured local_platform then 8 else 9).
Proof.
  cbv zeta. unfold release_cmds. cbn [filter length].
  replace (is_build_cmd (clone_cmd version repo_name)) with false
    by reflexivity.
  replace (is_convert_cmd (clone_cmd version repo_name)) with false
    by reflexivity.
  replace (is_upload_cmd (clone_cmd version repo_name)) with false
    by reflexivity.
  rewrite !filter_app, !length_app. cbn [filter length].
  replace (is_build_cmd purge_cmd) with false by reflexivity.
  replace (is_convert_cmd purge_cmd) with false by reflexivity.
  replace (is_upload_cmd purge_cmd) with false by reflexivity.
  cbn [length].
  induction pyvers as [|pyver l IH].
  - repeat split; reflexivity.
  - cbn [flat_map length]. rewrite !filter_app, !length_app.
    destruct (iteration_cmds_counts pyver) as (Hb & Hc & Hu & Hl).
    destruct IH as (IHb & IHc & IHu & IHl).
    rewrite Hb, Hc, Hu, Hl.
    destruct (is_configured local_platform); lia.
Qed.

End Counts.

(** X10.  A real release that returns normally has run one build per
    interpreter version, one convert per interpreter version and
    configured platform other than the local one (three when the local
    platform is configured, all four when it is not), and four uploads
    per interpreter version; with the clone and the purge that makes
    2 + 8n commands, or 2 + 9n. *)
Theorem X10_number_of_commands
    (E : env) (repo_name pkg_name version : string) (also37 : bool)
    (tr : list event) :
  release E (PyStr repo_name) (PyStr pkg_name) (PyStr version)
    (PyBool also37) (PyBool false) [] = (tr, Ok tt) ->
  exists now existed local_platform,
    local_platform =
      answer_str E
        (IsFile (ANACONDA_TOKEN_FILE E)
         :: plan_script E repo_name pkg_name version (python_versions also37)
         ++ before_platform_query E repo_name pkg_name version now existed)
        CondaPlatformName
    /\ let n := if also37 then 2 else 1 in
       let converts_per_version :=
         if is_configured local_platform then 3 else 4 in
       length (filter is_build_cmd (os_calls tr)) = n
       /\ length (filter is_convert_cmd (os_calls tr)) =
          n * converts_per_version
       /\ length (filter is_upload_cmd (os_calls tr)) = n * 4
       /\ length (os_calls tr) = 2 + n * (1 + converts_per_version + 4).
Proof.
  intro Hrun.
  destruct (release_follows_script E repo_name pkg_name version also37 false
              tr (Ok tt) Hrun)
    as (now & existed & lp & now' & Hlp & _ & Hok).
  exists now, existed, lp. split; [exact Hlp|].
  rewrite (Hok eq_refl), os_calls_release_script.
  destruct (release_cmds_counts E repo_name pkg_name version lp
              (python_versions also37)) as (Hb & Hc & Hu & Hl).
  cbv zeta. rewrite Hb, Hc, Hu, Hl.
  destruct also37; cbn [python_versions BASE_PYTHON_VERSIONS app length];
    destruct (is_configured lp); repeat split; reflexivity.
Qed.

(** ** The further properties at concrete calls *)

Lemma X2_witness :
  snd (release env_fine (PyStr "Tax-Calculator") (PyStr "taxcalc")
         (PyStr "0.22.2") (PyBool true) (PyBool false) []) = Ok tt.
Proof.
  destruct (X2_no_failure_of_its_own env_fine "Tax-Calculator" "taxcalc"
              "0.22.2" true false (fun _ _ => eq_refl) eq_refl eq_refl)
    as (now & existed & lp & now' & Hrun).
  rewrite Hrun. reflexivity.
Defined.

Lemma X3_witness :
  fst (release env_fine (PyStr "Tax-Calculator") (PyStr "taxcalc")
         (PyStr "0.22.2") (PyBool true) (PyBool true) []) =
  (IsFile (ANACONDA_TOKEN_FILE env_fine)
   :: plan_script env_fine "Tax-Calculator" "taxcalc" "0.22.2"
        (python_versions true))
  ++ [Print ": Package-Builder is quitting"].
Proof.
  exact (proj1 (X3_dry_run_shows_the_real_plan env_fine "Tax-Calculator"
                  "taxcalc" "0.22.2" true eq_refl eq_refl)).
Defined.

Lemma X4_witness :
  prefix_of
    (shown_plan env_dir_exists "Tax-Calculator" "taxcalc" "0.22.2" true
     ++ [Asctime;
         Print ": Package-Builder is starting at Tue Oct 23 09:00:00 2018";
         IsDir (WORKING_DIR env_dir_exists);
         Rmtree (WORKING_DIR env_dir_exists);
         Mkdir (WORKING_DIR env_dir_exists)])
    (fst (release env_dir_exists (PyStr "Tax-Calculator") (PyStr "taxcalc")
            (PyStr "0.22.2") (PyBool true) (PyBool false) [])).
Proof.
  destruct (X4_workspace_reset env_dir_exists "Tax-Calculator" "taxcalc"
              "0.22.2" true _ _ eq_refl eq_refl (surjective_pairing _))
    as (_ & Hmk & _).
  rewrite <- app_assoc in Hmk. apply Hmk. vm_compute. tauto.
Defined.

Lemma X6_witness :
  In (FileRevision "setup.py" "version = .*"
        ("version = " ++ dquote ++ "0.22.2" ++ dquote)%string)
     (firstn 23
        (fst (release env_fine (PyStr "Tax-Calculator") (PyStr "taxcalc")
                (PyStr "0.22.2") (PyBool true) (PyBool false) []))).
Proof.
  apply (X6_stamps_before_the_loop env_fine "Tax-Calculator" "taxcalc"
           "0.22.2" true false
           (snd (release env_fine (PyStr "Tax-Calculator") (PyStr "taxcalc")
                   (PyStr "0.22.2") (PyBool true) (PyBool false) []))
           (firstn 23
              (fst (release env_fine (PyStr "Tax-Calculator")
                      (PyStr "taxcalc") (PyStr "0.22.2") (PyBool true)
                      (PyBool false) [])))
           (skipn 24
              (fst (release env_fine (PyStr "Tax-Calculator")
                      (PyStr "taxcalc") (PyStr "0.22.2") (PyBool true)
                      (PyBool false) [])))
           (OsCall (build_cmd "3.6"))).
  - vm_compute. reflexivity.
  - reflexivity.
Defined.

Lemma X7_witness :
  In (OsCall (build_cmd "3.6"))
     (firstn 29
        (fst (release env_upload_fails (PyStr "Tax-Calculator")
                (PyStr "taxcalc") (PyStr "0.22.2") (PyBool true)
                (PyBool false) []))).
Proof.
  apply (X7_upload_after_its_build env_upload_fails "Tax-Calculator"
           "taxcalc" "0.22.2" true false
           (snd (release env_upload_fails (PyStr "Tax-Calculator")
                   (PyStr "taxcalc") (PyStr "0.22.2") (PyBool true)
                   (PyBool false) []))
           (firstn 29
              (fst (release env_upload_fails (PyStr "Tax-Calculator")
                      (PyStr "taxcalc") (PyStr "0.22.2") (PyBool true)
                      (PyBool false) [])))
           [] "osx-64" "3.6").
  - vm_compute. reflexivity.
  - simpl. tauto.
Defined.

Lemma X9_witness :
  pkgfile "taxcalc" "0.22.2" "3" = Err IndexError
  /\ pkgfile "taxcalc" "0.22.2" "3.7.1" =
     Ok "taxcalc-0.22.2-py37_0.tar.bz2"%string.
Proof.
  exact (X9_artifact_name_parts "taxcalc" "0.22.2" "3" "7" "1"
           eq_refl eq_refl).
Defined.

Lemma X10_witness :
  length
    (filter is_convert_cmd
       (os_calls
          (fst (release env_fine (PyStr "Tax-Calculator") (PyStr "taxcalc")
                  (PyStr "0.22.2") (PyBool true) (PyBool false) [])))) = 6.
Proof.
  destruct (X10_number_of_commands env_fine "Tax-Calculator" "taxcalc"
              "0.22.2" true
              (fst (release env_fine (PyStr "Tax-Calculator")
                      (PyStr "taxcalc") (PyStr "0.22.2") (PyBool true)
                      (PyBool false) [])))
    as (now & existed & lp & Hlp & _ & Hconv & _).
  - vm_compute. reflexivity.
  - cbn in Hlp. subst lp. exact Hconv.
Defined.
